(** * Spreadsheet: the order report of [spreadsheet.go]

    A shallow embedding of the Go program [spreadsheet.go] (package main):
    [readOrders], [calculate], [intToFloatString], [writeOrders] and [main],
    with the pieces of the Go standard library they call ([strconv.Atoi],
    [strings.Replace], [fmt.Sprintf] with the verb [%d], [log.Fatalf]).

    - A Go [string] is a sequence of bytes: Rocq's [string].
    - A Go [int] is a two's complement integer of 32 or 64 bits, depending
      on the platform: a [Z] with the wrap-around of every operation
      written out ([GoInt]).
    - A [[][]string] is a [list (list string)]; [rows[i]] is stdpp's lookup
      and [rows[i] = ...] stdpp's insert, with Go's run-time panic on an
      index out of range made explicit.  The records that [csv.ReadAll]
      returns are allocated one by one with no spare capacity, so an
      [append] to one of them never writes into another: rows are values.
    - [log.Fatalf] ends the process: an [outcome] is a normal return, a fatal
      exit with its message, or a run-time panic. *)

From Stdlib Require Import ZArith String Ascii List Lia QArith DecimalString DecimalPos.
From stdpp Require Import base list strings.

Import ListNotations.
Local Open Scope string_scope.
Local Open Scope list_scope.
Local Open Scope Z_scope.

(** ** Go's [int] *)

Module GoInt.

(** The size of [int] is fixed by the platform ([strconv.IntSize]). *)
Inductive IntSize : Type := Int32 | Int64.

Definition bits (sz : IntSize) : Z :=
  match sz with Int32 => 32 | Int64 => 64 end.

Definition minInt (sz : IntSize) : Z := - 2 ^ (bits sz - 1).
Definition maxInt (sz : IntSize) : Z := 2 ^ (bits sz - 1) - 1.

Definition in_range (sz : IntSize) (z : Z) : Prop :=
  minInt sz <= z <= maxInt sz.

(** The value an [int] holds after an operation whose exact result is [z]:
    [z] modulo [2 ^ bits], read as a signed number. *)
Definition wrap (sz : IntSize) (z : Z) : Z :=
  (z + 2 ^ (bits sz - 1)) mod 2 ^ bits sz - 2 ^ (bits sz - 1).

Definition add (sz : IntSize) (a b : Z) : Z := wrap sz (a + b).
Definition sub (sz : IntSize) (a b : Z) : Z := wrap sz (a - b).
Definition mul (sz : IntSize) (a b : Z) : Z := wrap sz (a * b).
(** Go's [/] on integers truncates toward zero. *)
Definition quo (sz : IntSize) (a b : Z) : Z := wrap sz (Z.quot a b).

End GoInt.

(** ** [strconv] *)

Module strconv.

Inductive error : Type := ErrSyntax | ErrRange.

(** [strconv.NumError]. *)
Record NumError : Type := mkNumError {
  Func : string;
  Num : string;
  Err : error
}.

Definition isDigit (c : ascii) : bool :=
  (48 <=? nat_of_ascii c)%nat && (nat_of_ascii c <=? 57)%nat.

Definition digitVal (c : ascii) : Z := Z.of_nat (nat_of_ascii c) - 48.

(** The loop of [ParseUint] in base 10: a byte that is no digit is a
    syntax error, a value above [maxVal] a range error, whichever comes
    first from the left. *)
Fixpoint parseUintLoop (maxVal : Z) (s : string) (n : Z) : error + Z :=
  match s with
  | EmptyString => inr n
  | String c s' =>
      if isDigit c then
        let n1 := n * 10 + digitVal c in
        if maxVal <? n1 then inl ErrRange else parseUintLoop maxVal s' n1
      else inl ErrSyntax
  end.

Definition ParseUint (sz : GoInt.IntSize) (s : string) : error + Z :=
  match s with
  | EmptyString => inl ErrSyntax
  | _ => parseUintLoop (2 ^ GoInt.bits sz - 1) s 0
  end.

(** [ParseInt(s, 10, 0)]: an optional sign, then [ParseUint]; the result
    must fit an [int]. *)
Definition ParseInt (sz : GoInt.IntSize) (s : string) : error + Z :=
  match s with
  | EmptyString => inl ErrSyntax
  | String c s' =>
      let neg := Ascii.eqb c "-" in
      let s1 := if Ascii.eqb c "+" || neg then s' else s in
      match ParseUint sz s1 with
      | inl e => inl e
      | inr un =>
          let cutoff := 2 ^ (GoInt.bits sz - 1) in
          if negb neg && (cutoff <=? un) then inl ErrRange
          else if neg && (cutoff <? un) then inl ErrRange
          else inr (if neg then - un else un)
      end
  end.

Definition Atoi (sz : GoInt.IntSize) (s : string) : NumError + Z :=
  match ParseInt sz s with
  | inl e => inl (mkNumError "Atoi" s e)
  | inr n => inr n
  end.

Definition error_text (e : error) : string :=
  match e with
  | ErrSyntax => "invalid syntax"
  | ErrRange => "value out of range"
  end.

(** The method [Error] of [NumError].  [Quote] stands for
    [strconv.Quote], which is taken as a parameter. *)
Definition NumError_Error (Quote : string -> string) (e : NumError) : string :=
  "strconv." +:+ Func e +:+ ": " +:+ "parsing " +:+ Quote (Num e) +:+ ": "
    +:+ error_text (Err e).

End strconv.

(** ** [strings] and [fmt] *)

Module strings.

(** [strings.Replace(s, old, new, -1)] for an [old] of one byte: every
    occurrence of the byte is replaced. *)
Fixpoint ReplaceAll (s : string) (old : ascii) (new : string) : string :=
  match s with
  | EmptyString => EmptyString
  | String c s' =>
      if Ascii.eqb c old then new +:+ ReplaceAll s' old new
      else String c (ReplaceAll s' old new)
  end.

End strings.

Module fmt.

(** The verb [%d] on an [int], and [fmt.Sprint] of an [int]: the decimal
    numeral, with a minus sign before a negative number and no padding. *)
Definition Sprint (n : Z) : string :=
  NilZero.string_of_int (Z.to_int n).

End fmt.


(** ** Outcomes of a run

    [log.Fatalf] and [log.Fatalln] print a message and end the process with
    [os.Exit(1)]; deferred calls do not run.  An index out of range is a
    run-time panic.  The program has one fatal message per call site. *)

Abbreviation table := (list (list string)).

Inductive message : Type :=
| CannotOpen (name err : string)
| CannotReadCSV (err : string)
| CannotRetrievePrice (item : string) (err : strconv.NumError)
| CannotRetrieveQuantity (item : string) (err : strconv.NumError)
| CannotClose (name err : string).

Definition LF : string := String "010"%char EmptyString.

(** The text that the call site formats, after the logger's own prefix. *)
Definition message_text (Quote : string -> string) (m : message) : string :=
  match m with
  | CannotOpen name err =>
      (* "Cannot open '%s': %s\n" *)
      "Cannot open '" +:+ name +:+ "': " +:+ err +:+ LF
  | CannotReadCSV err =>
      (* Fatalln("Cannot read CSV data:", err.Error()) *)
      "Cannot read CSV data:" +:+ " " +:+ err +:+ LF
  | CannotRetrievePrice item err =>
      (* "Cannot retrieve price of %s: %s\n" *)
      "Cannot retrieve price of " +:+ item +:+ ": "
        +:+ strconv.NumError_Error Quote err +:+ LF
  | CannotRetrieveQuantity item err =>
      (* "Cannot retrieve quantity of %s: %s\n" *)
      "Cannot retrieve quantity of " +:+ item +:+ ": "
        +:+ strconv.NumError_Error Quote err +:+ LF
  | CannotClose name err =>
      (* "Cannot close '%s': %s\n" *)
      "Cannot close '" +:+ name +:+ "': " +:+ err +:+ LF
  end.

Inductive outcome (A : Type) : Type :=
| Returned (a : A)
| Fatal (m : message)
| Panicked.

Arguments Returned {A} a.
Arguments Fatal {A} m.
Arguments Panicked {A}.

Definition bind {A B : Type} (m : outcome A) (k : A -> outcome B) : outcome B :=
  match m with
  | Returned a => k a
  | Fatal msg => Fatal msg
  | Panicked => Panicked
  end.

Notation "'do' x <- m ; k" := (bind m (fun x => k))
  (at level 10, x name, m at level 100, k at level 200).

(** [l[i]], which panics when [i] is out of range. *)
Definition index {A : Type} (l : list A) (i : nat) : outcome A :=
  match l !! i with
  | Some x => Returned x
  | None => Panicked
  end.

(** ** The calculator *)

Section Calculator.

Context (sz : GoInt.IntSize).

Definition intToFloatString (n : Z) : string :=
  let intgr := GoInt.quo sz n 100 in
  let frac := GoInt.sub sz n (GoInt.mul sz intgr 100) in
  (* Sprintf("%d.%d", intgr, frac) *)
  fmt.Sprint intgr +:+ "." +:+ fmt.Sprint frac.

(** The variables of [calculate] that its loop updates. *)
Record locals : Type := mkLocals {
  l_rows : table;
  l_sum : Z;
  l_nb : Z
}.

(** The body of the loop [for i := range rows], at index [i]. *)
Definition iteration (i : nat) (st : locals) : outcome locals :=
  if decide (i = 0%nat) then
    do hdr <- index (l_rows st) 0;
    Returned (mkLocals (<[0%nat := hdr ++ ["Total"]]> (l_rows st))
                       (l_sum st) (l_nb st))
  else
    do row <- index (l_rows st) i;
    do item <- index row 2;
    do cell3 <- index row 3;
    match strconv.Atoi sz (strings.ReplaceAll cell3 "." "") with
    | inl err => Fatal (CannotRetrievePrice item err)
    | inr price =>
        do cell4 <- index row 4;
        match strconv.Atoi sz cell4 with
        | inl err => Fatal (CannotRetrieveQuantity item err)
        | inr qty =>
            let total := GoInt.mul sz price qty in
            let rows := <[i := row ++ [intToFloatString total]]> (l_rows st) in
            let sum := GoInt.add sz (l_sum st) total in
            let nb := if decide (item = "Ball Pen")
                      then GoInt.add sz (l_nb st) qty else l_nb st in
            Returned (mkLocals rows sum nb)
        end
    end.

(** [for i := range rows]: the body at [i], [i + 1], ..., for [n] indices. *)
Fixpoint forRange (body : nat -> locals -> outcome locals)
    (i n : nat) (st : locals) : outcome locals :=
  match n with
  | O => Returned st
  | S n' => do st' <- body i st; forRange body (S i) n' st'
  end.

Definition calculate (rows : table) : outcome table :=
  do st <- forRange iteration 0 (length rows) (mkLocals rows 0 0);
  let rows := l_rows st ++ [[""; ""; ""; "Sum"; ""; intToFloatString (l_sum st)]] in
  let rows := rows ++ [[""; ""; ""; "Ball Pens"; fmt.Sprint (l_nb st); ""]] in
  Returned rows.

End Calculator.

(** ** Files

    The file system and [encoding/csv] are outside the program: an
    environment says, for each call, whether it fails (with the text of its
    error) and what [ReadAll] returns.  A run leaves the trace of the
    effects it had on files. *)

Record Env : Type := mkEnv {
  os_Open : string -> option string;
  csv_ReadAll : string -> string + table;
  os_Create : string -> option string;
  csv_WriteAll : string -> table -> option string;
  file_Close : string -> option string
}.

Inductive event : Type :=
| Opened (name : string)
| Created (name : string)
| Wrote (name : string) (rows : table)
| Closed (name : string).

Definition io (A : Type) : Type := (list event * outcome A)%type.

Definition io_bind {A B : Type} (m : io A) (k : A -> io B) : io B :=
  match m with
  | (t, Returned a) => let (t', r) := k a in (t ++ t', r)
  | (t, Fatal msg) => (t, Fatal msg)
  | (t, Panicked) => (t, Panicked)
  end.

(** A computation without effects on files. *)
Definition pure {A : Type} (m : outcome A) : io A := ([], m).

Definition readOrders (env : Env) (name : string) : io table :=
  match os_Open env name with
  | Some err => ([], Fatal (CannotOpen name err))
  | None =>
      match csv_ReadAll env name with
      | inl err => ([Opened name], Fatal (CannotReadCSV err))
      | inr rows =>
          (* defer f.Close(): its error is dropped *)
          ([Opened name; Closed name], Returned rows)
      end
  end.

Definition writeOrders (env : Env) (name : string) (rows : table) : io unit :=
  match os_Create env name with
  | Some err => ([], Fatal (CannotOpen name err))
  | None =>
      (* err = w.WriteAll(rows): assigned, and not read afterwards *)
      let err := csv_WriteAll env name rows in
      let written :=
        match err with None => [Wrote name rows] | Some _ => [] end in
      (* the deferred closure *)
      match file_Close env name with
      | Some e => (Created name :: written, Fatal (CannotClose name e))
      | None => (Created name :: written ++ [Closed name], Returned tt)
      end
  end.

Definition main (sz : GoInt.IntSize) (env : Env) : io unit :=
  io_bind (readOrders env "orders.csv") (fun rows =>
  io_bind (pure (calculate sz rows)) (fun rows =>
  writeOrders env "ordersReport.csv" rows)).

(** The files that a run created. *)
Definition filesCreated (t : list event) : list string :=
  flat_map (fun e => match e with Created name => [name] | _ => [] end) t.

(** An environment in which every call succeeds and [orders.csv] holds
    [rows]. *)
Definition env_ok (rows : table) : Env :=
  mkEnv (fun _ => None) (fun _ => inr rows) (fun _ => None)
        (fun _ _ => None) (fun _ => None).

(** ** Reading the tables

    The vocabulary in which the properties of [calculate] are stated: what
    the loop reads in a data row, and the sums it accumulates. *)

(** The item name is in column 2; Go's [==] on strings compares bytes. *)
Definition isBallPen (row : list string) : Prop := row !! 2%nat = Some "Ball Pen".

#[global] Instance isBallPen_dec (row : list string) : Decision (isBallPen row) :=
  decide (row !! 2%nat = Some "Ball Pen").

Section Reading.

Context (sz : GoInt.IntSize).

(** The cents of the unit price of a row: column 3 without its periods,
    read by [Atoi]. *)
Definition rowPrice (row : list string) : option Z :=
  match row !! 3%nat with
  | Some cell =>
      match strconv.Atoi sz (strings.ReplaceAll cell "." "") with
      | inr price => Some price
      | inl _ => None
      end
  | None => None
  end.

(** The quantity of a row: column 4 read by [Atoi]. *)
Definition rowQuantity (row : list string) : option Z :=
  match row !! 4%nat with
  | Some cell =>
      match strconv.Atoi sz cell with
      | inr qty => Some qty
      | inl _ => None
      end
  | None => None
  end.

(** A data row parses when both cells are there and [Atoi] accepts them. *)
Definition parses (row : list string) : Prop :=
  is_Some (rowPrice row) /\ is_Some (rowQuantity row).

#[global] Instance parses_dec (row : list string) : Decision (parses row) :=
  and_dec (is_Some_dec (rowPrice row)) (is_Some_dec (rowQuantity row)).

(** The total of a row, in cents, as [calculate] computes it. *)
Definition rowTotal (row : list string) : Z :=
  match rowPrice row, rowQuantity row with
  | Some price, Some qty => GoInt.mul sz price qty
  | _, _ => 0
  end.

Definition quantityOf (row : list string) : Z :=
  match rowQuantity row with Some qty => qty | None => 0 end.

(** The sum of a list of [int]s, added from the left with Go's [+]. *)
Definition goSum (l : list Z) : Z := fold_left (GoInt.add sz) l 0.

(** What one pass of the loop makes of one data row. *)
Definition parseRow (row : list string) : outcome (string * Z * Z) :=
  do item <- index row 2;
  do cell3 <- index row 3;
  match strconv.Atoi sz (strings.ReplaceAll cell3 "." "") with
  | inl err => Fatal (CannotRetrievePrice item err)
  | inr price =>
      do cell4 <- index row 4;
      match strconv.Atoi sz cell4 with
      | inl err => Fatal (CannotRetrieveQuantity item err)
      | inr qty => Returned (item, price, qty)
      end
  end.

(** The loop over the data rows as a recursion on the rows that are left:
    [forRange_process] shows that the loop computes it. *)
Fixpoint process (todo : table) (sum nb : Z) : outcome (table * Z * Z) :=
  match todo with
  | [] => Returned ([], sum, nb)
  | row :: rest =>
      do r <- parseRow row;
      let '(item, price, qty) := r in
      let total := GoInt.mul sz price qty in
      do p <- process rest (GoInt.add sz sum total)
                (if decide (item = "Ball Pen") then GoInt.add sz nb qty else nb);
      let '(rest', sum', nb') := p in
      Returned ((row ++ [intToFloatString sz total]) :: rest', sum', nb')
  end.

(** The two rows that [calculate] appends. *)
Definition sumRow (sum : Z) : list string :=
  [""; ""; ""; "Sum"; ""; intToFloatString sz sum].

Definition ballPensRow (nb : Z) : list string :=
  [""; ""; ""; "Ball Pens"; fmt.Sprint nb; ""].

(** A data row with its total appended. *)
Definition withTotal (row : list string) : list string :=
  row ++ [intToFloatString sz (rowTotal row)].

(** The rows of the input as [calculate] leaves them: the header with its
    new label, every data row with its total. *)
Definition extended (rows : table) : table :=
  match rows with
  | [] => []
  | hdr :: data => (hdr ++ ["Total"]) :: map withTotal data
  end.

(** The grand total: the totals of the data rows, summed. *)
Definition grandTotal (rows : table) : Z :=
  goSum (map rowTotal (tail rows)).

(** The ball pens: the quantities of the data rows whose item is
    ["Ball Pen"], summed. *)
Definition ballPens (rows : table) : Z :=
  goSum (map quantityOf (filter isBallPen (tail rows))).

End Reading.

(** The sum of a list of integers, without bounds. *)
Definition exactSum (l : list Z) : Z := fold_right Z.add 0 l.

(** The text of a number of cents [z] without bounds: what
    [intToFloatString] computes when every step is exact. *)
Definition exactFloatString (z : Z) : string :=
  fmt.Sprint (Z.quot z 100) +:+ "." +:+ fmt.Sprint (Z.rem z 100).

(** [pre ++ s ++ post]: the text [s] occurs in [t]. *)
Definition contains (t s : string) : Prop :=
  exists pre post : string, t = pre +:+ s +:+ post.

(** ** Prices as decimal numerals *)

Fixpoint allDigits (s : string) : Prop :=
  match s with
  | EmptyString => True
  | String c s' => strconv.isDigit c = true /\ allDigits s'
  end.

(** The number that a string of digits denotes, read from the left onto
    [n]. *)
Fixpoint valueFrom (s : string) (n : Z) : Z :=
  match s with
  | EmptyString => n
  | String c s' => valueFrom s' (n * 10 + strconv.digitVal c)
  end.

Definition decimalValue (s : string) : Z := valueFrom s 0.

(** The price written [ip.fp], in cents: a rational number. *)
Definition centsOf (ip fp : string) : Q :=
  (100 * decimalValue (ip +:+ fp)) # Z.to_pos (10 ^ Z.of_nat (String.length fp)).

(** ** Tables and environments of the examples *)

Definition header : list string :=
  ["Date"; "Order ID"; "Order Item"; "Unit Price"; "Quantity"].

(** The orders of the article: the file [orders.csv]. *)
Definition orders : table :=
  [ header;
    ["2017-11-17"; "1"; "Ball Pen"; "1.99"; "50"];
    ["2017-11-17"; "2"; "Notebook"; "12.99"; "10"];
    ["2017-11-17"; "3"; "Binder"; "4.99"; "25"];
    ["2017-11-18"; "4"; "Pencil"; "0.99"; "100"];
    ["2017-11-18"; "5"; "Sketch Block"; "2.99"; "40"];
    ["2017-11-19"; "6"; "Ball Pen"; "1.99"; "30"];
    ["2017-11-19"; "7"; "Sketch Block"; "2.99"; "20"];
    ["2017-11-19"; "8"; "Ball Pen"; "1.99"; "60"] ].

(** The scenario of two orders. *)
Definition twoOrders : table :=
  [ header;
    ["2017-11-17"; "1"; "Ball Pen"; "1.99"; "50"];
    ["2017-11-17"; "2"; "Notebook"; "12.99"; "10"] ].

(** One order whose total does not fit 64 bits. *)
Definition hugeOrder : table :=
  [ header;
    ["2017-11-17"; "1"; "Notebook"; "92233720368547758.07"; "2"] ].

(** Two orders of [2 ^ 62] cents each. *)
Definition hugeOrders : table :=
  [ header;
    ["2017-11-17"; "1"; "Notebook"; "46116860184273879.04"; "1"];
    ["2017-11-17"; "2"; "Notebook"; "46116860184273879.04"; "1"] ].

(** Two orders of ball pens, [2 ^ 63] pens together. *)
Definition hugeQuantities : table :=
  [ header;
    ["2017-11-17"; "1"; "Ball Pen"; "0.00"; "9223372036854775807"];
    ["2017-11-17"; "2"; "Ball Pen"; "0.00"; "1"] ].

(** Item names that differ from ["Ball Pen"] in case or in blanks. *)
Definition nearlyBallPens : table :=
  [ header;
    ["2017-11-17"; "1"; "ball pen"; "1.99"; "1"];
    ["2017-11-17"; "2"; "Ball Pen "; "1.99"; "2"];
    ["2017-11-17"; "3"; " Ball Pen"; "1.99"; "4"];
    ["2017-11-17"; "4"; "BALL PEN"; "1.99"; "8"];
    ["2017-11-17"; "5"; "Ball  Pen"; "1.99"; "16"];
    ["2017-11-17"; "6"; "Ball Pen"; "1.99"; "32"] ].

(** An order whose quantity is no number. *)
Definition badQuantity : table :=
  [ header;
    ["2017-11-17"; "1"; "Ball Pen"; "1.99"; "50"];
    ["2017-11-17"; "2"; "Notebook"; "12.99"; "ten"];
    ["2017-11-17"; "3"; "Binder"; "4.99"; "25"] ].

(** A price with one digit after the period. *)
Definition shortPrice : table :=
  [ header; ["2017-11-17"; "1"; "Eraser"; "2.5"; "3"] ].

(** The file can be created and closed, and writing to it fails. *)
Definition env_write_fails (rows : table) : Env :=
  mkEnv (fun _ => None) (fun _ => inr rows) (fun _ => None)
        (fun _ _ => Some "no space left on device") (fun _ => None).

(** ** Readings of the specification that the program does not meet *)

(** Every total is the text of the exact product. *)
Definition totalsExact (sz : GoInt.IntSize) (rows : table) : Prop :=
  forall (out : table) (i : nat) (row : list string) (price qty : Z),
    calculate sz rows = Returned out ->
    (0 < i)%nat -> rows !! i = Some row ->
    rowPrice sz row = Some price -> rowQuantity sz row = Some qty ->
    out !! i = Some (row ++ [exactFloatString (price * qty)]).

(** The grand total is the text of the exact sum of the totals. *)
Definition grandTotalExact (sz : GoInt.IntSize) (rows : table) : Prop :=
  forall out : table,
    calculate sz rows = Returned out ->
    out !! length rows =
      Some [""; ""; ""; "Sum"; "";
            exactFloatString (exactSum (map (rowTotal sz) (tail rows)))].

(** The count of ball pens is the exact sum of their quantities. *)
Definition ballPensExact (sz : GoInt.IntSize) (rows : table) : Prop :=
  forall out : table,
    calculate sz rows = Returned out ->
    out !! S (length rows) =
      Some [""; ""; ""; "Ball Pens";
            fmt.Sprint (exactSum (map (quantityOf sz) (filter isBallPen (tail rows))));
            ""].

(** The labels of the two last rows are in column 2. *)
Definition labelsInItemName (sz : GoInt.IntSize) (rows : table) : Prop :=
  forall out : table,
    calculate sz rows = Returned out ->
    exists (body : table) (total count : string),
      out = body ++ [ [""; ""; "Sum"; ""; ""; total];
                      [""; ""; "Ball Pens"; ""; count; ""] ].

(** The cents read from a price are right exactly when two digits follow
    the period. *)
Definition centsRightIffTwoDigits (sz : GoInt.IntSize) : Prop :=
  forall (ip fp : string) (price : Z),
    allDigits ip -> allDigits fp ->
    strconv.Atoi sz (strings.ReplaceAll (ip +:+ "." +:+ fp) "." "") = inr price ->
    (inject_Z price == centsOf ip fp)%Q <-> String.length fp = 2%nat.

(** A table of four columns: the quantity is missing in every row. *)
Definition fourColumns : table :=
  [ ["Date"; "Order ID"; "Order Item"; "Unit Price"];
    ["2017-11-17"; "1"; "Ball Pen"; "1.99"] ].

(** The first data row that does not parse ends the run with a fatal
    message that contains its item name. *)
Definition abortsWithItemName (sz : GoInt.IntSize) (rows : table) : Prop :=
  forall (hdr : list string) (good : table) (bad : list string) (rest : table),
    rows = hdr :: good ++ bad :: rest ->
    Forall (parses sz) good -> ~ parses sz bad ->
    exists (item : string) (m : message),
      bad !! 2%nat = Some item /\
      calculate sz rows = Fatal m /\
      forall Quote : string -> string, contains (message_text Quote m) item.

(** ** Further vocabulary *)

(** The total of a row without bounds: the product of the two numbers
    read in it. *)
Definition exactTotal (sz : GoInt.IntSize) (row : list string) : Z :=
  match rowPrice sz row, rowQuantity sz row with
  | Some price, Some qty => price * qty
  | _, _ => 0
  end.

(** Neither the price nor the quantity read in the row is negative. *)
Definition nonNegative (sz : GoInt.IntSize) (row : list string) : Prop :=
  match rowPrice sz row, rowQuantity sz row with
  | Some price, Some qty => 0 <= price /\ 0 <= qty
  | _, _ => True
  end.

(** Two rows with the same item name, unit price and quantity cells. *)
Definition sameOrder (row row' : list string) : Prop :=
  row !! 2%nat = row' !! 2%nat /\ row !! 3%nat = row' !! 3%nat /\
  row !! 4%nat = row' !! 4%nat.

(** The outcomes of two runs are alike: both return, both end with the
    same message, or both panic. *)
Definition alike {A B : Type} (a : outcome A) (b : outcome B) : Prop :=
  match a, b with
  | Returned _, Returned _ => True
  | Fatal m, Fatal m' => m = m'
  | Panicked, Panicked => True
  | _, _ => False
  end.

(** A data row that lacks its quantity cell. *)
Definition fourCells : table :=
  [ header;
    ["2017-11-17"; "1"; "Ball Pen"; "1.99"; "50"];
    ["2017-11-17"; "2"; "Notebook"; "12.99"];
    ["2017-11-17"; "3"; "Binder"; "4.99"; "25"] ].

(** The orders of [twoOrders] in the other order. *)
Definition twoOrdersSwapped : table :=
  [ header;
    ["2017-11-17"; "2"; "Notebook"; "12.99"; "10"];
    ["2017-11-17"; "1"; "Ball Pen"; "1.99"; "50"] ].

(** The orders of [twoOrders] with other dates and numbers, and a sixth
    cell. *)
Definition twoOrdersRedated : table :=
  [ header;
    ["2018-01-01"; "7"; "Ball Pen"; "1.99"; "50"; "urgent"];
    ["2018-01-02"; "8"; "Notebook"; "12.99"; "10"] ].

(** The reports of two tables with data rows [data] and [data'] agree: the
    runs end alike, and when they return, rows at the same index got the
    same total, and the two last rows are the same. *)
Definition sameReport (data data' : table) (r r' : outcome table) : Prop :=
  alike r r' /\
  forall out out' : table,
    r = Returned out -> r' = Returned out' ->
    (forall (i : nat) (row row' : list string),
       data !! i = Some row -> data' !! i = Some row' ->
       exists total : string,
         out !! S i = Some (row ++ [total]) /\
         out' !! S i = Some (row' ++ [total])) /\
    out !! S (length data) = out' !! S (length data') /\
    out !! S (S (length data)) = out' !! S (S (length data')).

(** * Properties *)

(** ** Arithmetic of [int] *)

Lemma half_pos sz : 0 < 2 ^ (GoInt.bits sz - 1).
Proof. destruct sz; reflexivity. Qed.

Lemma pow_bits sz : 2 ^ GoInt.bits sz = 2 * 2 ^ (GoInt.bits sz - 1).
Proof. destruct sz; reflexivity. Qed.

Lemma wrap_in_range sz z : GoInt.in_range sz z -> GoInt.wrap sz z = z.
Proof.
  unfold GoInt.in_range, GoInt.minInt, GoInt.maxInt, GoInt.wrap.
  intros Hz. pose proof (half_pos sz) as Hh. rewrite pow_bits.
  rewrite Z.mod_small by lia. lia.
Qed.

Lemma wrap_range sz z : GoInt.in_range sz (GoInt.wrap sz z).
Proof.
  unfold GoInt.in_range, GoInt.minInt, GoInt.maxInt, GoInt.wrap.
  pose proof (half_pos sz) as Hh. rewrite pow_bits.
  pose proof (Z.mod_pos_bound (z + 2 ^ (GoInt.bits sz - 1))
                (2 * 2 ^ (GoInt.bits sz - 1))) as Hm.
  lia.
Qed.

Lemma wrap_add_l sz a b : GoInt.wrap sz (GoInt.wrap sz a + b) = GoInt.wrap sz (a + b).
Proof.
  unfold GoInt.wrap. f_equal.
  replace ((a + 2 ^ (GoInt.bits sz - 1)) mod 2 ^ GoInt.bits sz
           - 2 ^ (GoInt.bits sz - 1) + b + 2 ^ (GoInt.bits sz - 1))
    with ((a + 2 ^ (GoInt.bits sz - 1)) mod 2 ^ GoInt.bits sz + b) by lia.
  rewrite Zplus_mod_idemp_l. f_equal. lia.
Qed.

Lemma zero_in_range sz : GoInt.in_range sz 0.
Proof. destruct sz; split; vm_compute; discriminate. Qed.

(** Adding from the left with wrap-around gives the exact sum, wrapped
    once. *)
Lemma fold_add_wrap sz (l : list Z) (s : Z) :
  GoInt.wrap sz (fold_left (GoInt.add sz) l s) = GoInt.wrap sz (s + exactSum l).
Proof.
  revert s. induction l as [|x l IH]; intros s;
    cbn [fold_left exactSum fold_right].
  - f_equal. lia.
  - rewrite IH. unfold GoInt.add. rewrite wrap_add_l. f_equal.
    unfold exactSum. lia.
Qed.

Lemma fold_add_in_range sz (l : list Z) (s : Z) :
  GoInt.in_range sz s -> GoInt.in_range sz (fold_left (GoInt.add sz) l s).
Proof.
  revert s. induction l as [|x l IH]; intros s Hs; cbn [fold_left]; [done|].
  apply IH, wrap_range.
Qed.

Lemma goSum_wrap sz (l : list Z) : goSum sz l = GoInt.wrap sz (exactSum l).
Proof.
  unfold goSum. rewrite <- (wrap_in_range sz (fold_left _ _ _)).
  - apply fold_add_wrap.
  - apply fold_add_in_range, zero_in_range.
Qed.

Lemma goSum_exact sz (l : list Z) :
  GoInt.in_range sz (exactSum l) -> goSum sz l = exactSum l.
Proof. intros H. rewrite goSum_wrap. by apply wrap_in_range. Qed.

(** Go's division by 100 and its remainder, for any sign. *)
Lemma quot_rem_100 n :
  n = Z.quot n 100 * 100 + Z.rem n 100 /\
  (0 <= n -> 0 <= Z.quot n 100 <= n /\ 0 <= Z.rem n 100 < 100) /\
  (n <= 0 -> n <= Z.quot n 100 <= 0 /\ -100 < Z.rem n 100 <= 0).
Proof.
  pose proof (Z.quot_rem' n 100) as E. split; [lia|]. split; intros Hn.
  - pose proof (Z.rem_bound_pos n 100 Hn). lia.
  - pose proof (Z.rem_bound_abs n 100). pose proof (Z.rem_nonpos n 100). lia.
Qed.

(** On a number that fits an [int], [intToFloatString] is exact. *)
Lemma intToFloatString_exact sz n :
  GoInt.in_range sz n -> intToFloatString sz n = exactFloatString n.
Proof.
  intros Hn. unfold intToFloatString, exactFloatString, GoInt.quo, GoInt.sub, GoInt.mul.
  destruct (quot_rem_100 n) as (E & Hpos & Hneg).
  assert (H128 : 128 <= 2 ^ (GoInt.bits sz - 1)) by (destruct sz; vm_compute; discriminate).
  unfold GoInt.in_range, GoInt.minInt, GoInt.maxInt in Hn.
  assert (Hq : GoInt.in_range sz (Z.quot n 100)).
  { unfold GoInt.in_range, GoInt.minInt, GoInt.maxInt.
    destruct (Z_le_gt_dec 0 n); lia. }
  rewrite (wrap_in_range sz (Z.quot n 100)) by done.
  assert (Hm : GoInt.in_range sz (Z.quot n 100 * 100)).
  { unfold GoInt.in_range, GoInt.minInt, GoInt.maxInt.
    destruct (Z_le_gt_dec 0 n); lia. }
  rewrite (wrap_in_range sz (Z.quot n 100 * 100)) by done.
  replace (n - Z.quot n 100 * 100) with (Z.rem n 100) by lia.
  rewrite wrap_in_range; [done|].
  unfold GoInt.in_range, GoInt.minInt, GoInt.maxInt.
  destruct (Z_le_gt_dec 0 n); lia.
Qed.

(** ** Numerals *)
Lemma append_cons (x : ascii) (a b : string) :
  String x a +:+ b = String x (a +:+ b).
Proof. reflexivity. Qed.

Lemma append_assoc (a b c : string) : (a +:+ b) +:+ c = a +:+ (b +:+ c).
Proof.
  induction a as [|x a IH]; [done|]. by rewrite !append_cons, IH.
Qed.

Lemma isDigit_plain (c : ascii) :
  strconv.isDigit c = true ->
  Ascii.eqb c "+" = false /\ Ascii.eqb c "-" = false /\ Ascii.eqb c "." = false.
Proof.
  destruct c as [[] [] [] [] [] [] [] []]; vm_compute; intros H;
    try discriminate H; done.
Qed.

Lemma allDigits_app (a b : string) :
  allDigits a -> allDigits b -> allDigits (a +:+ b).
Proof.
  induction a as [|x a IH]; [done|]. rewrite append_cons.
  cbn [allDigits]. intros [Hx Ha] Hb. auto.
Qed.

Lemma ReplaceAll_app (a b : string) (old : ascii) (new : string) :
  strings.ReplaceAll (a +:+ b) old new =
  strings.ReplaceAll a old new +:+ strings.ReplaceAll b old new.
Proof.
  induction a as [|x a IH]; [done|]. rewrite append_cons.
  cbn [strings.ReplaceAll].
  destruct (Ascii.eqb x old); rewrite IH; [|done]. by rewrite append_assoc.
Qed.

(** Digits are no periods: [Replace] leaves them as they are. *)
Lemma ReplaceAll_digits (s : string) :
  allDigits s -> strings.ReplaceAll s "." "" = s.
Proof.
  induction s as [|x s IH]; cbn; [done|]. intros [Hx Hs].
  destruct (isDigit_plain x Hx) as (_ & _ & ->). by rewrite IH.
Qed.

Lemma ReplaceAll_price (ip fp : string) :
  allDigits ip -> allDigits fp ->
  strings.ReplaceAll (ip +:+ "." +:+ fp) "." "" = ip +:+ fp.
Proof.
  intros Hip Hfp.
  rewrite !ReplaceAll_app, (ReplaceAll_digits ip), (ReplaceAll_digits fp) by done.
  reflexivity.
Qed.

(** What the loop of [ParseUint] returns is the number that the digits
    denote. *)
Lemma parseUintLoop_value (maxVal : Z) (s : string) :
  forall n v : Z,
    strconv.parseUintLoop maxVal s n = inr v -> v = valueFrom s n.
Proof.
  induction s as [|c s IH]; intros n v; cbn [strconv.parseUintLoop valueFrom].
  - intros H. by simplify_eq.
  - destruct (strconv.isDigit c); [|done].
    destruct (maxVal <? n * 10 + strconv.digitVal c); [done|]. apply IH.
Qed.

Lemma Atoi_digits sz (s : string) (v : Z) :
  allDigits s -> strconv.Atoi sz s = inr v -> v = decimalValue s.
Proof.
  intros Hs. unfold strconv.Atoi, strconv.ParseInt.
  destruct s as [|c s]; [done|]. destruct Hs as [Hc Hs].
  destruct (isDigit_plain c Hc) as (-> & -> & _). cbn [orb negb andb].
  unfold strconv.ParseUint.
  destruct (strconv.parseUintLoop _ (String c s) 0) as [e|un] eqn:Eun; [done|].
  apply parseUintLoop_value in Eun.
  destruct (2 ^ (GoInt.bits sz - 1) <=? un); [done|].
  intros H. by simplify_eq.
Qed.

(** [N] cents are the price [N / 10 ^ k] exactly when [k] is 2 or the
    price is zero. *)
Lemma cents_right_iff (N : Z) (k : nat) :
  (inject_Z N == (100 * N) # Z.to_pos (10 ^ Z.of_nat k))%Q <-> k = 2%nat \/ N = 0.
Proof.
  unfold Qeq. cbn [Qnum Qden inject_Z].
  assert (Hpos : 0 < 10 ^ Z.of_nat k) by (apply Z.pow_pos_nonneg; lia).
  rewrite Z2Pos.id by done. split.
  - intros H. destruct (decide (N = 0)) as [|HN]; [by right|left].
    assert (H100 : 10 ^ Z.of_nat k = 10 ^ 2) by nia.
    apply Z.pow_inj_r in H100; lia.
  - intros [->| ->]; [|lia]. change (10 ^ Z.of_nat 2) with 100. lia.
Qed.

(** The numerals of the numbers below 100 have one or two digits. *)
Lemma Sprint_one_digit (k : nat) :
  (k < 10)%nat -> String.length (fmt.Sprint (Z.of_nat k)) = 1%nat.
Proof.
  intros Hk. do 10 (destruct k as [|k]; [reflexivity|]). lia.
Qed.

Lemma Sprint_two_digits (k : nat) :
  (10 <= k < 100)%nat -> String.length (fmt.Sprint (Z.of_nat k)) = 2%nat.
Proof.
  intros Hk. do 10 (destruct k as [|k]; [lia|]).
  do 90 (destruct k as [|k]; [reflexivity|]). lia.
Qed.

(** ** Printing and reading back *)
(** Replaces the value of a given digit by its number. *)
Ltac digit_value :=
  match goal with
  | |- context [strconv.digitVal ?c] =>
      let v := eval vm_compute in (strconv.digitVal c) in
      change (strconv.digitVal c) with v
  end.

(** The digits of a [Decimal.uint], read from the left onto [n]. *)
Lemma valueFrom_uint_acc (d : Decimal.uint) :
  forall acc : positive,
    valueFrom (NilEmpty.string_of_uint d) (Z.pos acc) = Z.pos (Pos.of_uint_acc d acc).
Proof.
  induction d; intros acc; cbn [NilEmpty.string_of_uint valueFrom Pos.of_uint_acc];
    [done|..];
    rewrite <- IHd; f_equal; digit_value; lia.
Qed.

Lemma valueFrom_uint (d : Decimal.uint) :
  valueFrom (NilEmpty.string_of_uint d) 0 = Z.of_N (Pos.of_uint d).
Proof.
  induction d; cbn [NilEmpty.string_of_uint valueFrom Pos.of_uint Z.of_N];
    [done|..]; digit_value; [exact IHd|..];
    by rewrite <- valueFrom_uint_acc.
Qed.

Lemma allDigits_uint (d : Decimal.uint) : allDigits (NilEmpty.string_of_uint d).
Proof. induction d; cbn; auto. Qed.

(** Reading digits onto a number that is not negative does not go down. *)
Lemma valueFrom_le (s : string) :
  forall n : Z, allDigits s -> 0 <= n -> n <= valueFrom s n.
Proof.
  induction s as [|c s IH]; intros n Hs Hn; cbn [valueFrom]; [lia|].
  destruct Hs as [Hc Hs].
  assert (0 <= strconv.digitVal c).
  { unfold strconv.isDigit, strconv.digitVal in *.
    apply andb_true_iff in Hc as [Hc _]. apply Nat.leb_le in Hc. lia. }
  specialize (IH (n * 10 + strconv.digitVal c) Hs). lia.
Qed.

(** On digits whose number is within [maxVal], the loop of [ParseUint]
    returns that number. *)
Lemma parseUintLoop_digits (maxVal : Z) (s : string) :
  forall n : Z,
    allDigits s -> 0 <= n -> valueFrom s n <= maxVal ->
    strconv.parseUintLoop maxVal s n = inr (valueFrom s n).
Proof.
  induction s as [|c s IH]; intros n Hs Hn Hmax;
    cbn [strconv.parseUintLoop valueFrom] in *; [done|].
  destruct Hs as [Hc Hs]. rewrite Hc.
  assert (0 <= strconv.digitVal c).
  { unfold strconv.isDigit, strconv.digitVal in *.
    apply andb_true_iff in Hc as [Hc _]. apply Nat.leb_le in Hc. lia. }
  pose proof (valueFrom_le s (n * 10 + strconv.digitVal c) Hs).
  rewrite (proj2 (Z.ltb_ge _ _)) by lia. apply IH; [done|lia|done].
Qed.

Lemma parseUint_pos sz (p : positive) :
  Z.pos p <= 2 ^ GoInt.bits sz - 1 ->
  strconv.ParseUint sz (NilEmpty.string_of_uint (Pos.to_uint p)) = inr (Z.pos p).
Proof.
  intros Hp.
  assert (Hv : valueFrom (NilEmpty.string_of_uint (Pos.to_uint p)) 0 = Z.pos p).
  { rewrite valueFrom_uint, DecimalPos.Unsigned.of_to. done. }
  pose proof (allDigits_uint (Pos.to_uint p)) as Hd.
  unfold strconv.ParseUint.
  destruct (NilEmpty.string_of_uint (Pos.to_uint p)) as [|c s]; [done|].
  rewrite <- Hv. apply parseUintLoop_digits; [done|lia|lia].
Qed.

(** [Atoi] reads the numeral that [%d] prints for an [int]: the number
    itself. *)
Lemma Atoi_Sprint sz (n : Z) :
  GoInt.in_range sz n -> strconv.Atoi sz (fmt.Sprint n) = inr n.
Proof.
  unfold GoInt.in_range, GoInt.minInt, GoInt.maxInt. intros Hn.
  pose proof (half_pos sz) as Hh. pose proof (pow_bits sz) as Hb.
  unfold strconv.Atoi, fmt.Sprint.
  destruct n as [|p|p]; cbn [Z.to_int NilZero.string_of_int].
  - by destruct sz.
  - unfold NilZero.string_of_uint.
    pose proof (DecimalPos.Unsigned.to_uint_nonnil p) as Hnil.
    destruct (Pos.to_uint p) as [|d|d|d|d|d|d|d|d|d|d] eqn:Ed; [done|..];
      rewrite <- Ed;
      (assert (Hu : strconv.ParseUint sz (NilEmpty.string_of_uint (Pos.to_uint p))
                    = inr (Z.pos p)) by (apply parseUint_pos; lia));
      rewrite Ed in Hu |- *; cbn [NilEmpty.string_of_uint] in Hu |- *;
      unfold strconv.ParseInt; cbn [Ascii.eqb Bool.eqb orb negb andb];
      rewrite Hu; cbn [negb andb];
      rewrite (proj2 (Z.leb_gt _ _)) by lia; done.
  - unfold strconv.ParseInt. cbn [Ascii.eqb Bool.eqb orb negb andb].
    pose proof (DecimalPos.Unsigned.to_uint_nonnil p) as Hnil.
    assert (Hs : NilZero.string_of_uint (Pos.to_uint p)
                 = NilEmpty.string_of_uint (Pos.to_uint p))
      by (by destruct (Pos.to_uint p)).
    rewrite Hs, parseUint_pos by lia. cbn [negb andb].
    rewrite (proj2 (Z.ltb_ge _ _)) by lia. done.
Qed.

(** ** One data row *)

Lemma parseRow_parses sz (row : list string) :
  parses sz row ->
  exists item price qty,
    row !! 2%nat = Some item /\ rowPrice sz row = Some price /\
    rowQuantity sz row = Some qty /\ parseRow sz row = Returned (item, price, qty).
Proof.
  intros [[price Hp] [qty Hq]]. unfold rowPrice, rowQuantity in *.
  destruct (row !! 3%nat) as [cell3|] eqn:E3; [|done].
  destruct (row !! 4%nat) as [cell4|] eqn:E4; [|done].
  destruct (lookup_lt_is_Some_2 row 2) as [item E2].
  { apply lookup_lt_Some in E4. lia. }
  exists item, price, qty. unfold parseRow, index. rewrite E2, E3, E4. cbn [bind].
  destruct (strconv.Atoi sz (strings.ReplaceAll cell3 "." "")); [done|].
  destruct (strconv.Atoi sz cell4); [done|]. by simplify_eq.
Qed.

Lemma parseRow_Returned sz (row : list string) r :
  parseRow sz row = Returned r -> parses sz row.
Proof.
  unfold parseRow, parses, rowPrice, rowQuantity, index.
  destruct (row !! 2%nat); cbn [bind]; [|done].
  destruct (row !! 3%nat); cbn [bind]; [|done].
  destruct (strconv.Atoi sz (strings.ReplaceAll _ "." "")); [done|].
  destruct (row !! 4%nat); cbn [bind]; [|done].
  destruct (strconv.Atoi sz _); [done|]. eauto.
Qed.

(** A row of five cells or more that does not parse ends the run with a
    message about its item: about the price when the price is not read,
    about the quantity otherwise. *)
Lemma parseRow_fails sz (row : list string) :
  (5 <= length row)%nat -> ~ parses sz row ->
  exists item err,
    row !! 2%nat = Some item /\
    ((rowPrice sz row = None /\
      parseRow sz row = Fatal (CannotRetrievePrice item err)) \/
     (is_Some (rowPrice sz row) /\ rowQuantity sz row = None /\
      parseRow sz row = Fatal (CannotRetrieveQuantity item err))).
Proof.
  intros Hlen Hno.
  destruct (lookup_lt_is_Some_2 row 2) as [item E2]; [lia|].
  destruct (lookup_lt_is_Some_2 row 3) as [cell3 E3]; [lia|].
  destruct (lookup_lt_is_Some_2 row 4) as [cell4 E4]; [lia|].
  unfold parses, rowPrice, rowQuantity in *. rewrite E3, E4 in *.
  unfold parseRow, index. rewrite E2, E3, E4. cbn [bind].
  destruct (strconv.Atoi sz (strings.ReplaceAll cell3 "." "")) as [err|price].
  { exists item, err. eauto. }
  destruct (strconv.Atoi sz cell4) as [err|qty].
  { exists item, err. eauto 6. }
  destruct Hno. eauto.
Qed.

(** ** The loop *)

Lemma iteration_data sz (i : nat) (st : locals) (row : list string) :
  i <> 0%nat -> l_rows st !! i = Some row ->
  iteration sz i st =
    do r <- parseRow sz row;
    let '(item, price, qty) := r in
    let total := GoInt.mul sz price qty in
    Returned (mkLocals (<[i := row ++ [intToFloatString sz total]]> (l_rows st))
                (GoInt.add sz (l_sum st) total)
                (if decide (item = "Ball Pen")
                 then GoInt.add sz (l_nb st) qty else l_nb st)).
Proof.
  intros Hi Hrow. unfold iteration, parseRow, index.
  destruct (decide (i = 0%nat)); [done|]. rewrite Hrow. cbn [bind].
  destruct (row !! 2%nat); cbn [bind]; [|done].
  destruct (row !! 3%nat); cbn [bind]; [|done].
  destruct (strconv.Atoi sz (strings.ReplaceAll _ "." "")); [done|].
  destruct (row !! 4%nat); cbn [bind]; [|done].
  by destruct (strconv.Atoi sz _).
Qed.

(** The loop from index [length before] on, over the rows [todo] that are
    left, is [process todo]. *)
Lemma forRange_process sz (todo : table) :
  forall (before : table) (sum nb : Z),
    before <> [] ->
    forRange (iteration sz) (length before) (length todo)
             (mkLocals (before ++ todo) sum nb) =
    do p <- process sz todo sum nb;
    let '(todo', sum', nb') := p in
    Returned (mkLocals (before ++ todo') sum' nb').
Proof.
  induction todo as [|row rest IH]; intros before sum nb Hbefore;
    cbn [forRange process length bind]; [done|].
  rewrite (iteration_data sz _ _ row); cycle 1.
  { destruct before; [done|]. cbn. lia. }
  { cbn [l_rows]. apply list_lookup_middle. done. }
  destruct (parseRow sz row) as [[[item price] qty]| |]; cbn [bind]; try done.
  cbn [l_rows l_sum l_nb].
  rewrite insert_app_r_alt, Nat.sub_diag by lia. cbn [insert list_insert].
  rewrite cons_middle, app_assoc.
  replace (S (length before))
    with (length (before ++ [row ++ [intToFloatString sz (GoInt.mul sz price qty)]]))
    by (rewrite length_app; cbn; lia).
  rewrite IH by (by destruct before).
  destruct (process sz rest _ _) as [[[rest' sum'] nb']| |]; cbn [bind]; try done.
  by rewrite <- app_assoc.
Qed.

Lemma calculate_nil sz : calculate sz [] = Returned [sumRow sz 0; ballPensRow 0].
Proof. reflexivity. Qed.

(** [calculate] on a table with a header. *)
Lemma calculate_process sz (hdr : list string) (data : table) :
  calculate sz (hdr :: data) =
    do p <- process sz data 0 0;
    let '(data', sum, nb) := p in
    Returned ((hdr ++ ["Total"]) :: data' ++ [sumRow sz sum; ballPensRow nb]).
Proof.
  unfold calculate. cbn [length forRange].
  unfold iteration at 1. cbn [decide_rel l_rows l_sum l_nb index bind].
  destruct (decide (0%nat = 0%nat)); [|done].
  unfold index. cbn [lookup list_lookup bind insert list_insert].
  pose proof (forRange_process sz data [hdr ++ ["Total"]] 0 0) as H.
  cbn [length app] in H. rewrite H by done.
  destruct (process sz data 0 0) as [[[data' sum] nb]| |]; cbn [bind]; try done.
  cbn [l_rows l_sum l_nb app]. unfold sumRow, ballPensRow.
  by rewrite <- app_assoc.
Qed.

(** ** All the data rows *)

Lemma process_parses sz (todo : table) :
  forall sum nb : Z,
    Forall (parses sz) todo ->
    process sz todo sum nb =
      Returned (map (withTotal sz) todo,
                fold_left (GoInt.add sz) (map (rowTotal sz) todo) sum,
                fold_left (GoInt.add sz)
                  (map (quantityOf sz) (filter isBallPen todo)) nb).
Proof.
  induction todo as [|row rest IH]; intros sum nb Hall; [done|].
  apply Forall_cons in Hall as [Hrow Hrest].
  destruct (parseRow_parses sz row Hrow) as (item & price & qty & E2 & Ep & Eq & Er).
  assert (Et : rowTotal sz row = GoInt.mul sz price qty)
    by (unfold rowTotal; by rewrite Ep, Eq).
  assert (Eqty : quantityOf sz row = qty)
    by (unfold quantityOf; by rewrite Eq).
  cbn [process]. rewrite Er. cbn [bind]. rewrite IH by done. cbn [bind map].
  rewrite filter_cons. unfold withTotal at 2. rewrite Et. cbn [fold_left].
  destruct (decide (item = "Ball Pen")) as [->|Hne].
  - rewrite decide_True by done. cbn [map fold_left]. by rewrite Eqty.
  - rewrite decide_False; [done|]. unfold isBallPen. congruence.
Qed.

Lemma process_Returned sz (todo : table) :
  forall (sum nb : Z) p,
    process sz todo sum nb = Returned p -> Forall (parses sz) todo.
Proof.
  induction todo as [|row rest IH]; intros sum nb p Hp; [done|].
  cbn [process] in Hp.
  destruct (parseRow sz row) as [[[item price] qty]| |] eqn:Er; cbn [bind] in Hp; try done.
  destruct (process sz rest _ _) as [q| |] eqn:Eq; cbn [bind] in Hp; try done.
  constructor; eauto using parseRow_Returned.
Qed.

(** The first row that does not parse decides how the loop ends. *)
Lemma process_stops sz (good : table) (bad : list string) (rest : table) :
  forall sum nb : Z,
    Forall (parses sz) good ->
    (forall r, parseRow sz bad <> Returned r) ->
    process sz (good ++ bad :: rest) sum nb =
      match parseRow sz bad with
      | Returned _ => Panicked
      | Fatal m => Fatal m
      | Panicked => Panicked
      end.
Proof.
  induction good as [|row good IH]; intros sum nb Hall Hbad.
  - cbn [app process]. destruct (parseRow sz bad) as [r| |]; [by destruct (Hbad r)|done..].
  - apply Forall_cons in Hall as [Hrow Hgood].
    destruct (parseRow_parses sz row Hrow) as (item & price & qty & _ & _ & _ & Er).
    cbn [app process]. rewrite Er. cbn [bind]. rewrite IH by done.
    by destruct (parseRow sz bad).
Qed.

Lemma calculate_spec sz (rows : table) :
  Forall (parses sz) (tail rows) ->
  calculate sz rows =
    Returned (extended sz rows
              ++ [sumRow sz (grandTotal sz rows); ballPensRow (ballPens sz rows)]).
Proof.
  destruct rows as [|hdr data]; [done|]. cbn [tail]. intros Hall.
  rewrite calculate_process, process_parses by done. done.
Qed.

Lemma calculate_Returned sz (rows out : table) :
  calculate sz rows = Returned out -> Forall (parses sz) (tail rows).
Proof.
  destruct rows as [|hdr data]; [done|]. cbn [tail].
  rewrite calculate_process.
  destruct (process sz data 0 0) as [p| |] eqn:Ep; cbn [bind]; try done.
  intros _. eauto using process_Returned.
Qed.

(** In a list with an element that fails [P], there is a first one. *)
Lemma first_failure {A : Type} (P : A -> Prop) `{!forall x, Decision (P x)} (l : list A) :
  ~ Forall P l ->
  exists good bad rest, l = good ++ bad :: rest /\ Forall P good /\ ~ P bad.
Proof.
  induction l as [|x l IH]; intros Hno; [by destruct Hno|].
  destruct (decide (P x)) as [Hx|Hx].
  - destruct IH as (good & bad & rest & -> & Hgood & Hbad).
    { intros Hl. apply Hno. by constructor. }
    exists (x :: good), bad, rest. split_and!; [done|by constructor|done].
  - exists [], x, l. by split_and!.
Qed.

(** The report that the article shows for its orders. *)
Example calculate_orders sz :
  calculate sz orders =
    Returned
      [ ["Date"; "Order ID"; "Order Item"; "Unit Price"; "Quantity"; "Total"];
        ["2017-11-17"; "1"; "Ball Pen"; "1.99"; "50"; "99.50"];
        ["2017-11-17"; "2"; "Notebook"; "12.99"; "10"; "129.90"];
        ["2017-11-17"; "3"; "Binder"; "4.99"; "25"; "124.75"];
        ["2017-11-18"; "4"; "Pencil"; "0.99"; "100"; "99.0"];
        ["2017-11-18"; "5"; "Sketch Block"; "2.99"; "40"; "119.60"];
        ["2017-11-19"; "6"; "Ball Pen"; "1.99"; "30"; "59.70"];
        ["2017-11-19"; "7"; "Sketch Block"; "2.99"; "20"; "59.80"];
        ["2017-11-19"; "8"; "Ball Pen"; "1.99"; "60"; "119.40"];
        [""; ""; ""; "Sum"; ""; "811.65"];
        [""; ""; ""; "Ball Pens"; "140"; ""] ].
Proof. by destruct sz. Qed.

(** ** The rows of the result *)

Lemma length_extended sz (rows : table) : length (extended sz rows) = length rows.
Proof. destruct rows; cbn; [done|]. by rewrite length_map. Qed.

Lemma extended_header sz (hdr : list string) (data : table) :
  extended sz (hdr :: data) !! 0%nat = Some (hdr ++ ["Total"]).
Proof. done. Qed.

Lemma lookup_map {A B : Type} (f : A -> B) (l : list A) (i : nat) (x : A) :
  l !! i = Some x -> map f l !! i = Some (f x).
Proof.
  revert i. induction l as [|y l IH]; intros [|i] Hx; cbn in *; try done.
  - by simplify_eq.
  - by apply IH.
Qed.

Lemma extended_data sz (rows : table) (i : nat) (row : list string) :
  (0 < i)%nat -> rows !! i = Some row ->
  extended sz rows !! i = Some (withTotal sz row).
Proof.
  destruct rows as [|hdr data]; [done|]. destruct i as [|i]; [lia|].
  intros _ Hrow. cbn in *. by apply lookup_map.
Qed.

(** The result of a run that returns, row by row. *)
Lemma calculate_rows sz (rows out : table) :
  calculate sz rows = Returned out ->
  length out = (length rows + 2)%nat /\
  (forall i, (i < length rows)%nat -> out !! i = extended sz rows !! i) /\
  out !! length rows = Some (sumRow sz (grandTotal sz rows)) /\
  out !! S (length rows) = Some (ballPensRow (ballPens sz rows)).
Proof.
  intros Hout. pose proof (calculate_Returned _ _ _ Hout) as Hall.
  rewrite (calculate_spec _ _ Hall) in Hout. injection Hout as <-.
  pose proof (length_extended sz rows) as Hlen. split_and!.
  - rewrite length_app, Hlen. done.
  - intros i Hi. apply lookup_app_l. lia.
  - rewrite lookup_app_r, Hlen, Nat.sub_diag by lia. done.
  - rewrite lookup_app_r, Hlen by lia.
    by replace (S (length rows) - length rows)%nat with 1%nat by lia.
Qed.

Lemma withTotal_parses sz (row : list string) (price qty : Z) :
  rowPrice sz row = Some price -> rowQuantity sz row = Some qty ->
  withTotal sz row = row ++ [intToFloatString sz (GoInt.mul sz price qty)].
Proof. intros Hp Hq. unfold withTotal, rowTotal. by rewrite Hp, Hq. Qed.

(** The data row at index [i] of a run that returns. *)
Lemma calculate_data_row sz (rows out : table) (i : nat) (row : list string) :
  calculate sz rows = Returned out ->
  (0 < i)%nat -> rows !! i = Some row ->
  exists price qty,
    rowPrice sz row = Some price /\ rowQuantity sz row = Some qty /\
    out !! i = Some (row ++ [intToFloatString sz (GoInt.mul sz price qty)]).
Proof.
  intros Hout Hi Hrow.
  pose proof (calculate_Returned _ _ _ Hout) as Hall.
  destruct (calculate_rows _ _ _ Hout) as (_ & Hrows & _).
  assert (Hp : parses sz row).
  { destruct rows as [|hdr data]; [done|]. destruct i as [|i]; [lia|].
    cbn in *. eapply Forall_lookup_1; eauto. }
  destruct Hp as [[price Hp] [qty Hq]]. exists price, qty. split_and!; [done..|].
  rewrite Hrows by (by eapply lookup_lt_Some).
  rewrite (extended_data _ _ _ _ Hi Hrow). f_equal. by apply withTotal_parses.
Qed.

(** ** Fatal ends *)

Lemma message_contains_item (Quote : string -> string) (item : string)
    (err : strconv.NumError) :
  contains (message_text Quote (CannotRetrievePrice item err)) item /\
  contains (message_text Quote (CannotRetrieveQuantity item err)) item.
Proof. split; eexists _, _; reflexivity. Qed.

(** When [calculate] ends the run, [main] has created no file. *)
Lemma main_calculate_fatal sz (env : Env) (rows : table) (m : message) :
  os_Open env "orders.csv" = None ->
  csv_ReadAll env "orders.csv" = inr rows ->
  calculate sz rows = Fatal m ->
  main sz env = ([Opened "orders.csv"; Closed "orders.csv"], Fatal m).
Proof.
  intros Hopen Hread Hcalc. unfold main, readOrders, io_bind, pure.
  by rewrite Hopen, Hread, Hcalc.
Qed.

(** * The properties of the specification *)

(** C1 (amended).  For every data row of a table on which [calculate]
    returns, both cells parse and the cell appended to the row is the text
    that [intToFloatString] gives for the product of the cents of the unit
    price and the quantity, computed with Go's [*] on [int]: the exact
    product reduced modulo [2 ^ bits].  When the exact product fits an
    [int], the cell is the text of the exact product.  No value other than
    integers occurs. *)
Theorem total_is_price_times_quantity sz (rows out : table) (i : nat) (row : list string) :
  calculate sz rows = Returned out ->
  (0 < i)%nat -> rows !! i = Some row ->
  exists price qty : Z,
    rowPrice sz row = Some price /\ rowQuantity sz row = Some qty /\
    out !! i = Some (row ++ [intToFloatString sz (GoInt.mul sz price qty)]) /\
    GoInt.mul sz price qty = GoInt.wrap sz (price * qty) /\
    (GoInt.in_range sz (price * qty) ->
     out !! i = Some (row ++ [exactFloatString (price * qty)])).
Proof.
  intros Hout Hi Hrow.
  destruct (calculate_data_row _ _ _ _ _ Hout Hi Hrow) as (price & qty & Hp & Hq & Hcell).
  exists price, qty. split_and!; try done.
  intros Hfit. rewrite Hcell. unfold GoInt.mul.
  rewrite (wrap_in_range _ _ Hfit). by rewrite intToFloatString_exact.
Qed.

Lemma total_is_price_times_quantity_witness :
  exists out : table,
    calculate GoInt.Int64 twoOrders = Returned out /\
    rowPrice GoInt.Int64 ["2017-11-17"; "2"; "Notebook"; "12.99"; "10"] = Some 1299 /\
    rowQuantity GoInt.Int64 ["2017-11-17"; "2"; "Notebook"; "12.99"; "10"] = Some 10 /\
    out !! 2%nat = Some ["2017-11-17"; "2"; "Notebook"; "12.99"; "10"; "129.90"].
Proof.
  destruct (calculate GoInt.Int64 twoOrders) as [out| |] eqn:Hout;
    [|discriminate Hout..].
  assert (Hrow : twoOrders !! 2%nat
                 = Some ["2017-11-17"; "2"; "Notebook"; "12.99"; "10"]) by reflexivity.
  destruct (total_is_price_times_quantity GoInt.Int64 twoOrders out 2%nat _
              Hout (Nat.lt_0_succ 1) Hrow)
    as (price & qty & Hp & Hq & _ & _ & Hexact).
  injection Hp as <-. injection Hq as <-.
  exists out. split_and!; [reflexivity..|].
  rewrite Hexact; [reflexivity|]. by vm_compute.
Defined.

(** C1, as it is stated, fails when the product does not fit an [int]: on
    64 bits, 9223372036854775807 cents times 2 is the cell [0.-2]. *)
Lemma total_is_price_times_quantity_counterexample :
  calculate GoInt.Int64 hugeOrder =
    Returned [ header ++ ["Total"];
               ["2017-11-17"; "1"; "Notebook"; "92233720368547758.07"; "2"; "0.-2"];
               [""; ""; ""; "Sum"; ""; "0.-2"];
               [""; ""; ""; "Ball Pens"; "0"; ""] ] /\
  exactFloatString (9223372036854775807 * 2) = "184467440737095516.14" /\
  ~ totalsExact GoInt.Int64 hugeOrder.
Proof.
  split_and!; [by vm_compute..|].
  intros H.
  specialize (H _ 1%nat ["2017-11-17"; "1"; "Notebook"; "92233720368547758.07"; "2"]
                9223372036854775807 2 eq_refl).
  assert (Hc : (0 < 1)%nat) by lia.
  specialize (H Hc eq_refl eq_refl eq_refl). vm_compute in H. discriminate H.
Qed.

(** C2 (amended).  On every table whose data rows parse, [calculate]
    returns the rows of the input, extended, followed by exactly two rows
    of six cells: the first has the grand total in column 5, the second
    the count of ball pens in column 4; both have their label (["Sum"],
    ["Ball Pens"]) in column 3, the column of the unit price, and the
    empty string in every other cell. *)
Theorem two_summary_rows sz (rows : table) :
  Forall (parses sz) (tail rows) ->
  exists body : table,
    length body = length rows /\
    calculate sz rows =
      Returned (body ++
        [ [""; ""; ""; "Sum"; ""; intToFloatString sz (grandTotal sz rows)];
          [""; ""; ""; "Ball Pens"; fmt.Sprint (ballPens sz rows); ""] ]).
Proof.
  intros Hall. exists (extended sz rows). split.
  - apply length_extended.
  - by rewrite calculate_spec.
Qed.

Lemma two_summary_rows_witness :
  exists body : table,
    length body = 3%nat /\
    calculate GoInt.Int64 twoOrders =
      Returned (body ++
        [ [""; ""; ""; "Sum"; ""; "229.40"];
          [""; ""; ""; "Ball Pens"; "50"; ""] ]).
Proof.
  apply (two_summary_rows GoInt.Int64 twoOrders).
  repeat constructor; vm_compute; eauto.
Defined.

(** C2, as it is stated, fails on the orders of the example: the labels
    are in column 3, and column 2 of both rows is empty. *)
Lemma two_summary_rows_counterexample :
  calculate GoInt.Int64 twoOrders =
    Returned [ header ++ ["Total"];
               ["2017-11-17"; "1"; "Ball Pen"; "1.99"; "50"; "99.50"];
               ["2017-11-17"; "2"; "Notebook"; "12.99"; "10"; "129.90"];
               [""; ""; ""; "Sum"; ""; "229.40"];
               [""; ""; ""; "Ball Pens"; "50"; ""] ] /\
  ~ labelsInItemName GoInt.Int64 twoOrders.
Proof.
  split; [by vm_compute|].
  intros H. destruct (H _ eq_refl) as (body & total & count & E).
  assert (Hlen : length body = 3%nat).
  { apply (f_equal length) in E. rewrite (length_app body) in E. cbn in E. lia. }
  apply (f_equal (fun l : table => l !! 3%nat)) in E.
  rewrite (lookup_app_r body), Hlen in E by lia. cbn in E. discriminate E.
Qed.

(** C3 (amended).  On every table whose data rows parse, [calculate]
    returns, and the total in the first of the two last rows is the text
    of the totals of the data rows added up with Go's [+] on [int]: their
    exact sum reduced modulo [2 ^ bits].  When the exact sum fits an
    [int], it is the text of the exact sum.  For the two orders of 1.99
    times 50 and 12.99 times 10 it is the text of 22940 cents. *)
Theorem grand_total_is_sum sz (rows : table) :
  Forall (parses sz) (tail rows) ->
  exists out : table,
    calculate sz rows = Returned out /\
    out !! length rows =
      Some [""; ""; ""; "Sum"; ""; intToFloatString sz (grandTotal sz rows)] /\
    grandTotal sz rows = GoInt.wrap sz (exactSum (map (rowTotal sz) (tail rows))) /\
    (GoInt.in_range sz (exactSum (map (rowTotal sz) (tail rows))) ->
     out !! length rows =
       Some [""; ""; ""; "Sum"; "";
             exactFloatString (exactSum (map (rowTotal sz) (tail rows)))]) /\
    map (rowTotal sz) (tail twoOrders) = [9950; 12990] /\
    grandTotal sz twoOrders = 22940 /\
    intToFloatString sz 22940 = "229.40".
Proof.
  intros Hall. eexists. split; [by apply calculate_spec|].
  pose proof (length_extended sz rows) as Hlen.
  assert (Hsum : (extended sz rows
                  ++ [sumRow sz (grandTotal sz rows); ballPensRow (ballPens sz rows)])
                 !! length rows = Some (sumRow sz (grandTotal sz rows))).
  { rewrite lookup_app_r, Hlen, Nat.sub_diag by lia. done. }
  split_and!.
  - done.
  - apply goSum_wrap.
  - intros Hfit. rewrite Hsum. unfold sumRow, grandTotal.
    rewrite goSum_exact by done. by rewrite intToFloatString_exact.
  - by destruct sz.
  - by destruct sz.
  - by destruct sz.
Qed.

Lemma grand_total_is_sum_witness :
  Forall (parses GoInt.Int64) (tail twoOrders) /\
  exists out : table,
    calculate GoInt.Int64 twoOrders = Returned out /\
    out !! 3%nat = Some [""; ""; ""; "Sum"; ""; "229.40"].
Proof.
  assert (Hall : Forall (parses GoInt.Int64) (tail twoOrders))
    by (repeat constructor; vm_compute; eauto).
  split; [exact Hall|].
  destruct (grand_total_is_sum GoInt.Int64 twoOrders Hall)
    as (out & Hout & Hrow & _ & _ & _ & Hsum & Htext).
  exists out. split; [exact Hout|].
  rewrite Hsum, Htext in Hrow. exact Hrow.
Defined.

(** C3, as it is stated, fails when the sum does not fit an [int]: on 64
    bits, two totals of [2 ^ 62] cents add up to [- 2 ^ 63]. *)
Lemma grand_total_is_sum_counterexample :
  calculate GoInt.Int64 hugeOrders =
    Returned
      [ header ++ ["Total"];
        ["2017-11-17"; "1"; "Notebook"; "46116860184273879.04"; "1";
         "46116860184273879.4"];
        ["2017-11-17"; "2"; "Notebook"; "46116860184273879.04"; "1";
         "46116860184273879.4"];
        [""; ""; ""; "Sum"; ""; "-92233720368547758.-8"];
        [""; ""; ""; "Ball Pens"; "0"; ""] ] /\
  map (rowTotal GoInt.Int64) (tail hugeOrders)
    = [4611686018427387904; 4611686018427387904] /\
  exactFloatString (4611686018427387904 + 4611686018427387904)
    = "92233720368547758.8" /\
  ~ grandTotalExact GoInt.Int64 hugeOrders.
Proof.
  split_and!; [by vm_compute..|].
  intros H. specialize (H _ eq_refl). vm_compute in H. discriminate H.
Qed.

(** C4 (amended).  On every table whose data rows parse, [calculate]
    returns, and the count in the last row is the decimal numeral of the
    quantities of the data rows whose item name is, byte for byte,
    ["Ball Pen"], added up with Go's [+] on [int]: their exact sum reduced
    modulo [2 ^ bits], and the exact sum when that fits an [int].  Rows
    with any other name add nothing: of the rows of [nearlyBallPens] only
    the last counts. *)
Theorem ball_pens_is_sum sz (rows : table) :
  Forall (parses sz) (tail rows) ->
  exists out : table,
    calculate sz rows = Returned out /\
    out !! S (length rows) =
      Some [""; ""; ""; "Ball Pens"; fmt.Sprint (ballPens sz rows); ""] /\
    ballPens sz rows =
      GoInt.wrap sz (exactSum (map (quantityOf sz) (filter isBallPen (tail rows)))) /\
    (GoInt.in_range sz (exactSum (map (quantityOf sz) (filter isBallPen (tail rows)))) ->
     ballPens sz rows = exactSum (map (quantityOf sz) (filter isBallPen (tail rows)))) /\
    (forall row, row ∈ filter isBallPen (tail rows) <->
                 row ∈ tail rows /\ row !! 2%nat = Some "Ball Pen") /\
    ballPens sz nearlyBallPens = 32.
Proof.
  intros Hall. eexists. split; [by apply calculate_spec|].
  pose proof (length_extended sz rows) as Hlen. split_and!.
  - rewrite lookup_app_r, Hlen by lia.
    by replace (S (length rows) - length rows)%nat with 1%nat by lia.
  - apply goSum_wrap.
  - apply goSum_exact.
  - intros row. rewrite list_elem_of_filter. unfold isBallPen. tauto.
  - by destruct sz.
Qed.

Lemma ball_pens_is_sum_witness :
  Forall (parses GoInt.Int64) (tail nearlyBallPens) /\
  exists out : table,
    calculate GoInt.Int64 nearlyBallPens = Returned out /\
    out !! 8%nat = Some [""; ""; ""; "Ball Pens"; "32"; ""].
Proof.
  assert (Hall : Forall (parses GoInt.Int64) (tail nearlyBallPens))
    by (repeat constructor; vm_compute; eauto).
  split; [exact Hall|].
  destruct (ball_pens_is_sum GoInt.Int64 nearlyBallPens Hall)
    as (out & Hout & Hrow & _ & _ & _ & Hnb).
  exists out. split; [exact Hout|]. rewrite Hnb in Hrow. exact Hrow.
Defined.

(** C4, as it is stated, fails when the sum does not fit an [int]: on 64
    bits, 9223372036854775807 ball pens and 1 ball pen are counted as
    -9223372036854775808. *)
Lemma ball_pens_is_sum_counterexample :
  calculate GoInt.Int64 hugeQuantities =
    Returned
      [ header ++ ["Total"];
        ["2017-11-17"; "1"; "Ball Pen"; "0.00"; "9223372036854775807"; "0.0"];
        ["2017-11-17"; "2"; "Ball Pen"; "0.00"; "1"; "0.0"];
        [""; ""; ""; "Sum"; ""; "0.0"];
        [""; ""; ""; "Ball Pens"; "-9223372036854775808"; ""] ] /\
  map (quantityOf GoInt.Int64) (filter isBallPen (tail hugeQuantities))
    = [9223372036854775807; 1] /\
  ~ ballPensExact GoInt.Int64 hugeQuantities.
Proof.
  split_and!; [by vm_compute..|].
  intros H. specialize (H _ eq_refl). vm_compute in H. discriminate H.
Qed.

(** C5 (amended).  [calculate] returns on a table exactly when every data
    row has its unit price (without its periods) and its quantity read by
    [Atoi].  Otherwise there is a first data row that does not parse; when
    that row has five cells or more, [calculate] ends the run with a fatal
    message which contains the item name of the row, whatever
    [strconv.Quote] makes of the cell, and [main] ends with that message
    after it read [orders.csv], without creating a file. *)
Theorem calculate_returns_iff_rows_parse sz (rows : table) :
  ((exists out : table, calculate sz rows = Returned out)
   <-> Forall (parses sz) (tail rows)) /\
  (~ Forall (parses sz) (tail rows) ->
   exists (hdr : list string) (good : table) (bad : list string) (rest : table),
     rows = hdr :: good ++ bad :: rest /\ Forall (parses sz) good /\ ~ parses sz bad) /\
  (forall (hdr : list string) (good : table) (bad : list string) (rest : table),
     rows = hdr :: good ++ bad :: rest ->
     Forall (parses sz) good -> ~ parses sz bad -> (5 <= length bad)%nat ->
     exists (item : string) (err : strconv.NumError) (m : message),
       bad !! 2%nat = Some item /\
       m = (if decide (rowPrice sz bad = None)
            then CannotRetrievePrice item err
            else CannotRetrieveQuantity item err) /\
       calculate sz rows = Fatal m /\
       (forall Quote : string -> string, contains (message_text Quote m) item) /\
       (forall env : Env,
          os_Open env "orders.csv" = None ->
          csv_ReadAll env "orders.csv" = inr rows ->
          snd (main sz env) = Fatal m /\ filesCreated (fst (main sz env)) = [])).
Proof.
  split_and!.
  - split.
    + intros [out Hout]. by eapply calculate_Returned.
    + intros Hall. eexists. by apply calculate_spec.
  - intros Hno. destruct rows as [|hdr data]; [by destruct Hno|].
    destruct (first_failure _ _ Hno) as (good & bad & rest & E & Hgood & Hbad).
    cbn [tail] in E. subst data. by exists hdr, good, bad, rest.
  - intros hdr good bad rest -> Hgood Hbad Hlen.
    destruct (parseRow_fails sz bad Hlen Hbad) as (item & err & Hitem & Hfatal).
    assert (Hcalc : forall m, parseRow sz bad = Fatal m ->
                              calculate sz (hdr :: good ++ bad :: rest) = Fatal m).
    { intros m Hm. rewrite calculate_process, process_stops; [by rewrite Hm|done|].
      intros r. by rewrite Hm. }
    destruct Hfatal as [[Hp Hfatal]|([p Hp] & Hq & Hfatal)]; apply Hcalc in Hfatal;
      eexists item, err, _; (split_and!; [done|reflexivity| | |]).
    + rewrite decide_True by done. exact Hfatal.
    + intros Quote. rewrite decide_True by done. apply message_contains_item.
    + intros env Hopen Hread. rewrite decide_True by done.
      by rewrite (main_calculate_fatal sz env _ _ Hopen Hread Hfatal).
    + rewrite decide_False by congruence. exact Hfatal.
    + intros Quote. rewrite decide_False by congruence.
      apply message_contains_item.
    + intros env Hopen Hread. rewrite decide_False by congruence.
      by rewrite (main_calculate_fatal sz env _ _ Hopen Hread Hfatal).
Qed.

Lemma calculate_returns_iff_rows_parse_witness :
  exists m : message,
    m = CannotRetrieveQuantity "Notebook"
          (strconv.mkNumError "Atoi" "ten" strconv.ErrSyntax) /\
    calculate GoInt.Int64 badQuantity = Fatal m /\
    (forall Quote : string -> string, contains (message_text Quote m) "Notebook") /\
    (forall env : Env,
       os_Open env "orders.csv" = None ->
       csv_ReadAll env "orders.csv" = inr badQuantity ->
       snd (main GoInt.Int64 env) = Fatal m /\
       filesCreated (fst (main GoInt.Int64 env)) = []).
Proof.
  destruct (calculate_returns_iff_rows_parse GoInt.Int64 badQuantity) as (_ & _ & H).
  destruct (H header [["2017-11-17"; "1"; "Ball Pen"; "1.99"; "50"]]
              ["2017-11-17"; "2"; "Notebook"; "12.99"; "ten"]
              [["2017-11-17"; "3"; "Binder"; "4.99"; "25"]])
    as (item & err & m & Hitem & Hm & Hcalc & Htext & Hmain).
  - reflexivity.
  - repeat constructor; vm_compute; eauto.
  - intros [_ [q Hq]]. vm_compute in Hq. discriminate Hq.
  - cbn. lia.
  - injection Hitem as <-. exists m. split_and!; [|done..].
    assert (E : calculate GoInt.Int64 badQuantity =
                Fatal (CannotRetrieveQuantity "Notebook"
                         (strconv.mkNumError "Atoi" "ten" strconv.ErrSyntax)))
      by reflexivity.
    congruence.
Defined.

(** C5, as it is stated, fails on a table of four columns: the price of
    its data row parses, the quantity cell is not there, and the run
    panics at [rows[i][4]] without a message. *)
Lemma calculate_returns_iff_rows_parse_counterexample :
  calculate GoInt.Int64 fourColumns = Panicked /\
  ~ parses GoInt.Int64 ["2017-11-17"; "1"; "Ball Pen"; "1.99"] /\
  ~ abortsWithItemName GoInt.Int64 fourColumns.
Proof.
  assert (Hbad : ~ parses GoInt.Int64 ["2017-11-17"; "1"; "Ball Pen"; "1.99"]).
  { intros [_ [q Hq]]. discriminate Hq. }
  split_and!; [reflexivity|exact Hbad|].
  intros H.
  destruct (H ["Date"; "Order ID"; "Order Item"; "Unit Price"] []
              ["2017-11-17"; "1"; "Ball Pen"; "1.99"] [] eq_refl)
    as (item & m & _ & Hm & _); [constructor|exact Hbad|].
  discriminate Hm.
Qed.

(** C6.  For every [int] [n] that is not negative, [intToFloatString n] is
    the decimal numeral of [n / 100], a period, and the decimal numeral of
    [n mod 100] as [%d] prints it, without padding: one character when
    [n mod 100] is below 10.  9900 gives [99.0] and 10005 gives [100.5]. *)
Theorem intToFloatString_unpadded sz (n : Z) :
  0 <= n <= GoInt.maxInt sz ->
  intToFloatString sz n = fmt.Sprint (n / 100) +:+ "." +:+ fmt.Sprint (n mod 100) /\
  (n mod 100 < 10 -> String.length (fmt.Sprint (n mod 100)) = 1%nat) /\
  (10 <= n mod 100 -> String.length (fmt.Sprint (n mod 100)) = 2%nat) /\
  intToFloatString sz 9900 = "99.0" /\
  intToFloatString sz 10005 = "100.5".
Proof.
  intros Hn. split_and!.
  - rewrite intToFloatString_exact.
    + unfold exactFloatString.
      rewrite Z.quot_div_nonneg, Z.rem_mod_nonneg by lia. done.
    + unfold GoInt.in_range, GoInt.minInt. pose proof (half_pos sz). lia.
  - intros Hlt. pose proof (Z.mod_pos_bound n 100 eq_refl) as Hm.
    rewrite <- (Z2Nat.id (n mod 100)) by lia. apply Sprint_one_digit. lia.
  - intros Hge. pose proof (Z.mod_pos_bound n 100 eq_refl) as Hm.
    rewrite <- (Z2Nat.id (n mod 100)) by lia. apply Sprint_two_digits. lia.
  - by destruct sz.
  - by destruct sz.
Qed.

Lemma intToFloatString_unpadded_witness :
  intToFloatString GoInt.Int64 129 = "1.29" /\
  intToFloatString GoInt.Int64 9900 = "99.0" /\
  intToFloatString GoInt.Int64 10005 = "100.5".
Proof.
  assert (H129 : 0 <= 129 <= GoInt.maxInt GoInt.Int64) by (by vm_compute).
  destruct (intToFloatString_unpadded GoInt.Int64 129 H129) as (H & _ & _ & H1 & H2).
  split_and!; [exact H|exact H1|exact H2].
Defined.

(** C7.  For every table whose header and data rows have five cells each
    and whose data rows parse, [calculate] returns; in its result the
    header is the header of the input followed by ["Total"], every data
    row is the data row of the input followed by one cell, and these rows
    have six cells. *)
Theorem rows_grow_to_six sz (hdr : list string) (data : table) :
  length hdr = 5%nat ->
  Forall (fun row => length row = 5%nat) data ->
  Forall (parses sz) data ->
  exists out : table,
    calculate sz (hdr :: data) = Returned out /\
    out !! 0%nat = Some (hdr ++ ["Total"]) /\
    length (hdr ++ ["Total"]) = 6%nat /\
    forall (i : nat) (row : list string),
      data !! i = Some row ->
      exists total : string,
        out !! S i = Some (row ++ [total]) /\ length (row ++ [total]) = 6%nat.
Proof.
  intros Hhdr Hfive Hall.
  pose proof (calculate_spec sz (hdr :: data) Hall) as Hout.
  destruct (calculate_rows _ _ _ Hout) as (_ & Hrows & _).
  eexists. split; [exact Hout|]. split_and!.
  - rewrite Hrows by (cbn; lia). done.
  - rewrite length_app, Hhdr. done.
  - intros i row Hrow. exists (intToFloatString sz (rowTotal sz row)). split.
    + rewrite Hrows by (apply lookup_lt_Some in Hrow; cbn; lia).
      apply (extended_data sz (hdr :: data) (S i) row); [lia|done].
    + rewrite length_app, (Forall_lookup_1 _ _ _ _ Hfive Hrow). done.
Qed.

Lemma rows_grow_to_six_witness :
  exists out : table,
    calculate GoInt.Int64 twoOrders = Returned out /\
    out !! 0%nat = Some (header ++ ["Total"]) /\
    length (header ++ ["Total"]) = 6%nat /\
    forall (i : nat) (row : list string),
      tail twoOrders !! i = Some row ->
      exists total : string,
        out !! S i = Some (row ++ [total]) /\ length (row ++ [total]) = 6%nat.
Proof.
  apply (rows_grow_to_six GoInt.Int64 header (tail twoOrders)).
  - reflexivity.
  - repeat constructor.
  - repeat constructor; vm_compute; eauto.
Defined.

(** C8 (amended).  For every data row of a table on which [calculate]
    returns, the cents used as the unit price are what [Atoi] reads in
    the cell of column 3 once every period is deleted, and the total of
    the row is computed from them.  When the cell is written [ip.fp] with
    digits only, these cents are the number that the digits of [ip] and
    [fp] denote together; they are the price in cents exactly when [fp]
    has two digits or the price is zero.  A price written [2.5] is read as
    25 cents. *)
Theorem unit_price_cents sz (rows out : table) (i : nat) (row : list string)
    (cell3 : string) :
  calculate sz rows = Returned out ->
  (0 < i)%nat -> rows !! i = Some row -> row !! 3%nat = Some cell3 ->
  exists price qty : Z,
    strconv.Atoi sz (strings.ReplaceAll cell3 "." "") = inr price /\
    rowQuantity sz row = Some qty /\
    out !! i = Some (row ++ [intToFloatString sz (GoInt.mul sz price qty)]) /\
    (forall ip fp : string,
       cell3 = ip +:+ "." +:+ fp -> allDigits ip -> allDigits fp ->
       price = decimalValue (ip +:+ fp) /\
       ((inject_Z price == centsOf ip fp)%Q <->
        String.length fp = 2%nat \/ price = 0)) /\
    strconv.Atoi sz (strings.ReplaceAll "2.5" "." "") = inr 25.
Proof.
  intros Hout Hi Hrow Hcell.
  destruct (calculate_data_row _ _ _ _ _ Hout Hi Hrow) as (price & qty & Hp & Hq & Hrow').
  exists price, qty. unfold rowPrice in Hp. rewrite Hcell in Hp.
  destruct (strconv.Atoi sz (strings.ReplaceAll cell3 "." "")) as [e|p] eqn:Ep; [done|].
  simplify_eq. split_and!; [done..| |by destruct sz].
  intros ip fp -> Hip Hfp. rewrite ReplaceAll_price in Ep by done.
  apply Atoi_digits in Ep; [|by apply allDigits_app]. split; [done|].
  unfold centsOf. rewrite <- Ep. apply cents_right_iff.
Qed.

Lemma unit_price_cents_witness :
  exists price qty : Z,
    strconv.Atoi GoInt.Int64 (strings.ReplaceAll "2.5" "." "") = inr price /\
    rowQuantity GoInt.Int64 ["2017-11-17"; "1"; "Eraser"; "2.5"; "3"] = Some qty /\
    price = 25 /\ qty = 3 /\
    ~ (inject_Z price == centsOf "2" "5")%Q /\
    calculate GoInt.Int64 shortPrice =
      Returned [ header ++ ["Total"];
                 ["2017-11-17"; "1"; "Eraser"; "2.5"; "3"; "0.75"];
                 [""; ""; ""; "Sum"; ""; "0.75"];
                 [""; ""; ""; "Ball Pens"; "0"; ""] ].
Proof.
  assert (Hout : calculate GoInt.Int64 shortPrice =
      Returned [ header ++ ["Total"];
                 ["2017-11-17"; "1"; "Eraser"; "2.5"; "3"; "0.75"];
                 [""; ""; ""; "Sum"; ""; "0.75"];
                 [""; ""; ""; "Ball Pens"; "0"; ""] ]) by (by vm_compute).
  assert (Hi : (0 < 1)%nat) by lia.
  destruct (unit_price_cents GoInt.Int64 shortPrice _ 1%nat
              ["2017-11-17"; "1"; "Eraser"; "2.5"; "3"] "2.5"
              Hout Hi eq_refl eq_refl)
    as (price & qty & Hp & Hq & _).
  exists price, qty.
  assert (price = 25) as -> by (vm_compute in Hp; congruence).
  assert (qty = 3) as -> by (vm_compute in Hq; congruence).
  split_and!; try done.
Defined.

(** C8, as it is stated, fails for a price of zero: [0.0] has one digit
    after the period and is read as 0 cents, which is the price. *)
Lemma unit_price_cents_counterexample :
  strconv.Atoi GoInt.Int64 (strings.ReplaceAll "0.0" "." "") = inr 0 /\
  (inject_Z 0 == centsOf "0" "0")%Q /\
  ~ centsRightIffTwoDigits GoInt.Int64.
Proof.
  split_and!; [done..|].
  intros H. specialize (H "0" "0" 0).
  destruct H as [H _]; [by vm_compute..|].
  assert (E : (inject_Z 0 == centsOf "0" "0")%Q) by done.
  apply H in E. vm_compute in E. discriminate E.
Qed.

(** C9 fails on the program.  [writeOrders] returns exactly when the file
    could be created and closed: the error of [WriteAll], which writes and
    flushes, is assigned to [err] and never looked at.  With a file that
    can be created and closed and not written, [writeOrders] returns, and
    so does [main]. *)
Theorem writeOrders_drops_write_error (env : Env) (name : string) (rows : table) :
  (snd (writeOrders env name rows) = Returned tt
   <-> os_Create env name = None /\ file_Close env name = None) /\
  csv_WriteAll (env_write_fails twoOrders) "ordersReport.csv" twoOrders
    = Some "no space left on device" /\
  writeOrders (env_write_fails twoOrders) "ordersReport.csv" twoOrders
    = ([Created "ordersReport.csv"; Closed "ordersReport.csv"], Returned tt) /\
  main GoInt.Int64 (env_write_fails twoOrders)
    = ([Opened "orders.csv"; Closed "orders.csv";
        Created "ordersReport.csv"; Closed "ordersReport.csv"], Returned tt).
Proof.
  split_and!; [|done..].
  unfold writeOrders.
  destruct (os_Create env name), (file_Close env name); cbn; split;
    intros H; try done; by destruct H.
Qed.

(** C10.  When [calculate] returns, its result has two rows more than the
    input, and the row at every index of the input begins with the cells
    of the input row at that index, in their order: no cell of the input
    is changed, dropped or moved. *)
Theorem calculate_keeps_input sz (rows out : table) :
  calculate sz rows = Returned out ->
  length out = (length rows + 2)%nat /\
  forall (i : nat) (row : list string),
    rows !! i = Some row ->
    exists row' : list string, out !! i = Some row' /\ row `prefix_of` row'.
Proof.
  intros Hout. destruct (calculate_rows _ _ _ Hout) as (Hlen & Hrows & _).
  split; [done|]. intros i row Hrow.
  rewrite Hrows by (by eapply lookup_lt_Some).
  destruct i as [|i].
  - destruct rows as [|hdr data]; [done|]. cbn in Hrow. simplify_eq.
    eexists. split; [done|]. by apply prefix_app_r.
  - rewrite (extended_data sz rows (S i) row) by (done || lia).
    eexists. split; [done|]. by apply prefix_app_r.
Qed.

Lemma calculate_keeps_input_witness :
  length [ header ++ ["Total"];
           ["2017-11-17"; "1"; "Ball Pen"; "1.99"; "50"; "99.50"];
           ["2017-11-17"; "2"; "Notebook"; "12.99"; "10"; "129.90"];
           [""; ""; ""; "Sum"; ""; "229.40"];
           [""; ""; ""; "Ball Pens"; "50"; ""] ] = (length twoOrders + 2)%nat /\
  forall (i : nat) (row : list string),
    twoOrders !! i = Some row ->
    exists row' : list string,
      [ header ++ ["Total"];
        ["2017-11-17"; "1"; "Ball Pen"; "1.99"; "50"; "99.50"];
        ["2017-11-17"; "2"; "Notebook"; "12.99"; "10"; "129.90"];
        [""; ""; ""; "Sum"; ""; "229.40"];
        [""; ""; ""; "Ball Pens"; "50"; ""] ] !! i = Some row' /\
      row `prefix_of` row'.
Proof.
  apply (calculate_keeps_input GoInt.Int64 twoOrders). by vm_compute.
Defined.

(** * Further properties of the program *)

(** ** How the loop ends *)

Lemma calculate_stops sz (hdr : list string) (good : table) (bad : list string)
    (rest : table) :
  Forall (parses sz) good -> ~ parses sz bad ->
  calculate sz (hdr :: good ++ bad :: rest) =
    match parseRow sz bad with
    | Returned _ => Panicked
    | Fatal m => Fatal m
    | Panicked => Panicked
    end.
Proof.
  intros Hgood Hbad. rewrite calculate_process, process_stops; [|done|].
  - by destruct (parseRow sz bad).
  - intros r Hr. by apply Hbad, (parseRow_Returned sz bad r).
Qed.

(** A row panics when a cell is missing at the moment it is read: the
    item or the price, or the quantity after a price that parsed. *)
Lemma parseRow_Panicked sz (row : list string) :
  parseRow sz row = Panicked <->
  (length row < 4)%nat \/ (length row = 4%nat /\ is_Some (rowPrice sz row)).
Proof.
  unfold parseRow, rowPrice, index.
  destruct (row !! 2%nat) as [item|] eqn:E2; cbn [bind].
  2:{ apply lookup_ge_None in E2. split; [intros _; left; lia|done]. }
  destruct (row !! 3%nat) as [cell3|] eqn:E3; cbn [bind].
  2:{ apply lookup_ge_None in E3. split; [intros _; left; lia|done]. }
  apply lookup_lt_Some in E3.
  destruct (strconv.Atoi sz (strings.ReplaceAll cell3 "." "")) as [err|price].
  { split; [done|]. intros [?|[_ [? ?]]]; [lia|done]. }
  destruct (row !! 4%nat) as [cell4|] eqn:E4; cbn [bind].
  2:{ apply lookup_ge_None in E4. split; [|done]. intros _. right. split; [lia|eauto]. }
  apply lookup_lt_Some in E4.
  destruct (strconv.Atoi sz cell4); (split; [done|]); intros [?|[? _]]; lia.
Qed.

(** X1.  [calculate] does not read the header: whatever the first row of
    the table is, of any length, the run ends in the same way, and when
    it returns, the first row of the result is the first row of the input
    followed by ["Total"] and all other rows are the same. *)
Theorem header_is_not_read sz (hdr hdr' : list string) (data : table) :
  match calculate sz (hdr :: data), calculate sz (hdr' :: data) with
  | Returned out, Returned out' =>
      out !! 0%nat = Some (hdr ++ ["Total"]) /\
      out' !! 0%nat = Some (hdr' ++ ["Total"]) /\
      tail out = tail out'
  | Fatal m, Fatal m' => m = m'
  | Panicked, Panicked => True
  | _, _ => False
  end.
Proof.
  rewrite !calculate_process.
  by destruct (process sz data 0 0) as [[[data' sum] nb]| |].
Qed.

(** X2.  Without data rows nothing is parsed and [calculate] returns: a
    table of one row, whatever that row is, gets ["Total"] and the two
    last rows with the total [0.0] and the count [0]; the empty table
    gets the two last rows alone. *)
Theorem no_data_rows sz (hdr : list string) :
  calculate sz [hdr] =
    Returned [ hdr ++ ["Total"];
               [""; ""; ""; "Sum"; ""; "0.0"];
               [""; ""; ""; "Ball Pens"; "0"; ""] ] /\
  calculate sz [] =
    Returned [ [""; ""; ""; "Sum"; ""; "0.0"];
               [""; ""; ""; "Ball Pens"; "0"; ""] ].
Proof. by destruct sz. Qed.

(** X3.  On a table whose data rows have five cells or more, [calculate]
    does not panic: it returns, or it ends the run with the message about
    the price or the quantity of the first row that does not parse. *)
Theorem no_panic_with_five_cells sz (rows : table) :
  Forall (fun row => (5 <= length row)%nat) (tail rows) ->
  (exists out : table, calculate sz rows = Returned out) \/
  (exists (item : string) (err : strconv.NumError),
     calculate sz rows = Fatal (CannotRetrievePrice item err) \/
     calculate sz rows = Fatal (CannotRetrieveQuantity item err)).
Proof.
  intros Hfive. destruct (decide (Forall (parses sz) (tail rows))) as [Hall|Hno].
  { left. eexists. by apply calculate_spec. }
  right. destruct rows as [|hdr data]; [by destruct Hno|]. cbn [tail] in *.
  destruct (first_failure _ _ Hno) as (good & bad & rest & -> & Hgood & Hbad).
  apply Forall_app in Hfive as [_ Hfive]. apply Forall_cons in Hfive as [Hlen _].
  destruct (parseRow_fails sz bad Hlen Hbad) as (item & err & _ & H).
  exists item, err. rewrite calculate_stops by done.
  destruct H as [[_ ->]|(_ & _ & ->)]; eauto.
Qed.

Lemma no_panic_with_five_cells_witness :
  calculate GoInt.Int64 badQuantity <> Panicked /\
  ((exists out : table, calculate GoInt.Int64 badQuantity = Returned out) \/
   (exists (item : string) (err : strconv.NumError),
      calculate GoInt.Int64 badQuantity = Fatal (CannotRetrievePrice item err) \/
      calculate GoInt.Int64 badQuantity = Fatal (CannotRetrieveQuantity item err))).
Proof.
  split; [discriminate|].
  apply (no_panic_with_five_cells GoInt.Int64 badQuantity).
  repeat constructor; cbn; lia.
Defined.

(** X4.  When the first data row that does not parse is reached,
    [calculate] panics exactly when that row has fewer than four cells, or
    has four cells and a price that [Atoi] reads: a row of four cells
    whose price is not read ends the run with the message about the
    price instead. *)
Theorem panics_on_short_row sz (hdr : list string) (good : table)
    (bad : list string) (rest : table) :
  Forall (parses sz) good -> ~ parses sz bad ->
  (calculate sz (hdr :: good ++ bad :: rest) = Panicked <->
   (length bad < 4)%nat \/ (length bad = 4%nat /\ is_Some (rowPrice sz bad))).
Proof.
  intros Hgood Hbad. rewrite calculate_stops by done.
  rewrite <- parseRow_Panicked.
  destruct (parseRow sz bad) as [r| |] eqn:Er; [|done..].
  destruct Hbad. by apply (parseRow_Returned sz bad r).
Qed.

Lemma panics_on_short_row_witness :
  calculate GoInt.Int64 fourCells = Panicked /\
  rowPrice GoInt.Int64 ["2017-11-17"; "2"; "Notebook"; "12.99"] = Some 1299.
Proof.
  split; [|reflexivity].
  apply (panics_on_short_row GoInt.Int64 header
           [["2017-11-17"; "1"; "Ball Pen"; "1.99"; "50"]]
           ["2017-11-17"; "2"; "Notebook"; "12.99"]
           [["2017-11-17"; "3"; "Binder"; "4.99"; "25"]]).
  - repeat constructor; vm_compute; eauto.
  - intros [_ [q Hq]]. discriminate Hq.
  - right. split; [reflexivity|]. by exists 1299.
Defined.

(** X5.  The rows after the first data row that does not parse are not
    read: with any other rows in their place the run ends in the same
    way, and it does not return. *)
Theorem rows_after_failure_not_read sz (hdr : list string) (good : table)
    (bad : list string) (rest rest' : table) :
  Forall (parses sz) good -> ~ parses sz bad ->
  calculate sz (hdr :: good ++ bad :: rest) = calculate sz (hdr :: good ++ bad :: rest') /\
  forall out : table, calculate sz (hdr :: good ++ bad :: rest) <> Returned out.
Proof.
  intros Hgood Hbad. rewrite !calculate_stops by done. split; [done|].
  intros out. by destruct (parseRow sz bad).
Qed.

Lemma rows_after_failure_not_read_witness :
  calculate GoInt.Int64 badQuantity =
    calculate GoInt.Int64
      [ header;
        ["2017-11-17"; "1"; "Ball Pen"; "1.99"; "50"];
        ["2017-11-17"; "2"; "Notebook"; "12.99"; "ten"];
        ["2017-11-17"; "3"; "Binder"; "no price"; "25"];
        ["2017-11-17"; "4"] ] /\
  forall out : table, calculate GoInt.Int64 badQuantity <> Returned out.
Proof.
  apply (rows_after_failure_not_read GoInt.Int64 header
           [["2017-11-17"; "1"; "Ball Pen"; "1.99"; "50"]]
           ["2017-11-17"; "2"; "Notebook"; "12.99"; "ten"]).
  - repeat constructor; vm_compute; eauto.
  - intros [_ [q Hq]]. discriminate Hq.
Defined.

(** ** Texts of numbers, read back *)

Lemma valueFrom_app (a b : string) :
  forall n : Z, valueFrom (a +:+ b) n = valueFrom b (valueFrom a n).
Proof.
  induction a as [|x a IH]; intros n; [done|].
  rewrite append_cons. cbn [valueFrom]. apply IH.
Qed.

Lemma valueFrom_shift (s : string) :
  forall n : Z,
    valueFrom s n = n * 10 ^ Z.of_nat (String.length s) + valueFrom s 0.
Proof.
  induction s as [|c s IH]; intros n; cbn [valueFrom String.length].
  - change (10 ^ Z.of_nat 0) with 1. lia.
  - rewrite (IH (n * 10 + strconv.digitVal c)), (IH (0 * 10 + strconv.digitVal c)).
    rewrite Nat2Z.inj_succ, Z.pow_succ_r by lia. lia.
Qed.

(** The numeral that [%d] prints for a number that is not negative: digits
    that denote the number. *)
Lemma Sprint_nonneg (k : Z) :
  0 <= k ->
  allDigits (fmt.Sprint k) /\ fmt.Sprint k <> "" /\ decimalValue (fmt.Sprint k) = k.
Proof.
  intros Hk. destruct k as [|p|p]; [by vm_compute| |lia].
  unfold fmt.Sprint. cbn [Z.to_int NilZero.string_of_int].
  pose proof (DecimalPos.Unsigned.to_uint_nonnil p) as Hnil.
  assert (Hs : NilZero.string_of_uint (Pos.to_uint p)
               = NilEmpty.string_of_uint (Pos.to_uint p))
    by (by destruct (Pos.to_uint p)).
  rewrite Hs. split_and!.
  - apply allDigits_uint.
  - by destruct (Pos.to_uint p).
  - unfold decimalValue. by rewrite valueFrom_uint, DecimalPos.Unsigned.of_to.
Qed.

(** [Atoi] reads digits whose number fits an [int]. *)
Lemma Atoi_digits_fit sz (s : string) :
  allDigits s -> s <> "" -> decimalValue s <= GoInt.maxInt sz ->
  strconv.Atoi sz s = inr (decimalValue s).
Proof.
  intros Hs Hne Hfit. unfold GoInt.maxInt in Hfit.
  pose proof (half_pos sz) as Hh. pose proof (pow_bits sz) as Hb.
  unfold strconv.Atoi, strconv.ParseInt.
  destruct s as [|c s]; [done|].
  pose proof Hs as [Hc _].
  destruct (isDigit_plain c Hc) as (-> & -> & _). cbn [orb negb andb].
  unfold strconv.ParseUint.
  rewrite parseUintLoop_digits; [|done|lia|unfold decimalValue in Hfit; lia].
  fold (decimalValue (String c s)).
  by rewrite (proj2 (Z.leb_gt _ _)) by lia.
Qed.

(** Numbers that are not negative are each at most their sum. *)
Lemma exactSum_bounds (l : list Z) :
  Forall (fun x => 0 <= x) l ->
  0 <= exactSum l /\ Forall (fun x => x <= exactSum l) l.
Proof.
  induction 1 as [|x l Hx Hl [IH0 IH]]; cbn [exactSum fold_right].
  - split; [lia|constructor].
  - fold (exactSum l). split; [lia|]. constructor; [lia|].
    eapply Forall_impl; [exact IH|]. cbn. lia.
Qed.

Lemma map_ext_Forall {A B : Type} (f g : A -> B) (l : list A) :
  Forall (fun x => f x = g x) l -> map f l = map g l.
Proof. induction 1 as [|x l Hx _ IH]; cbn; [done|]. by rewrite Hx, IH. Qed.

(** X6.  On a table whose data rows parse, with no negative price or
    quantity, whose exact grand total (the sum of the products of price
    and quantity) fits an [int] and whose exact number of ball pens (the
    sum of the quantities of the rows of ball pens) fits an [int],
    nothing wraps: every total cell is the text of the exact product, the
    total of the last row but one is the text of the exact sum, and the
    count of the last row is the numeral of the exact number of ball
    pens. *)
Theorem exact_when_total_fits sz (rows : table) :
  Forall (parses sz) (tail rows) ->
  Forall (nonNegative sz) (tail rows) ->
  exactSum (map (exactTotal sz) (tail rows)) <= GoInt.maxInt sz ->
  exactSum (map (quantityOf sz) (filter isBallPen (tail rows))) <= GoInt.maxInt sz ->
  exists out : table,
    calculate sz rows = Returned out /\
    (forall (i : nat) (row : list string),
       (0 < i)%nat -> rows !! i = Some row ->
       out !! i = Some (row ++ [exactFloatString (exactTotal sz row)])) /\
    out !! length rows =
      Some [""; ""; ""; "Sum"; "";
            exactFloatString (exactSum (map (exactTotal sz) (tail rows)))] /\
    out !! S (length rows) =
      Some [""; ""; ""; "Ball Pens";
            fmt.Sprint (exactSum (map (quantityOf sz) (filter isBallPen (tail rows))));
            ""].
Proof.
  intros Hall Hnn Hfit Hcount.
  assert (Hpos' : Forall (fun row => 0 <= exactTotal sz row) (tail rows)).
  { apply Forall_forall. intros row Hin.
    destruct (proj1 (Forall_forall _ _) Hall row Hin) as [[p Hp] [q Hq]].
    pose proof (proj1 (Forall_forall _ _) Hnn row Hin) as Hrow.
    unfold nonNegative, exactTotal in *. rewrite Hp, Hq in *. nia. }
  assert (Hpos : Forall (fun x => 0 <= x) (map (exactTotal sz) (tail rows)))
    by (by apply List.Forall_map).
  destruct (exactSum_bounds _ Hpos) as [Hsum0 Hle].
  rewrite List.Forall_map in Hle.
  assert (Hmin : GoInt.minInt sz <= 0)
    by (unfold GoInt.minInt; pose proof (half_pos sz); lia).
  assert (Hfits : forall row, row ∈ tail rows ->
                    GoInt.in_range sz (exactTotal sz row)).
  { intros row Hin.
    pose proof (proj1 (Forall_forall _ _) Hpos' row Hin) as Hlo.
    pose proof (proj1 (Forall_forall _ _) Hle row Hin) as Hup.
    cbn in Hlo, Hup. unfold GoInt.in_range. lia. }
  assert (Hsame : Forall (fun row => rowTotal sz row = exactTotal sz row) (tail rows)).
  { apply Forall_forall. intros row Hin. specialize (Hfits row Hin).
    unfold rowTotal, exactTotal in *.
    destruct (rowPrice sz row), (rowQuantity sz row); try done.
    by apply wrap_in_range. }
  assert (Hqty : Forall (fun x => 0 <= x)
                   (map (quantityOf sz) (filter isBallPen (tail rows)))).
  { apply List.Forall_map, Forall_forall. intros row Hin.
    apply list_elem_of_filter in Hin as [_ Hin].
    destruct (proj1 (Forall_forall _ _) Hall row Hin) as [[p Hp] [q Hq]].
    pose proof (proj1 (Forall_forall _ _) Hnn row Hin) as Hrow.
    unfold nonNegative, quantityOf in *. rewrite Hp, Hq in *. lia. }
  destruct (exactSum_bounds _ Hqty) as [Hcount0 _].
  pose proof (calculate_spec sz rows Hall) as Hout.
  destruct (calculate_rows _ _ _ Hout) as (_ & Hrows & Hsum & Hnb).
  eexists. split; [exact Hout|]. split_and!.
  - intros i row Hi Hrow. rewrite Hrows by (by eapply lookup_lt_Some).
    rewrite (extended_data sz rows i row Hi Hrow). unfold withTotal.
    assert (Hin : row ∈ tail rows).
    { destruct rows as [|hdr data]; [done|]. destruct i as [|i]; [lia|].
      cbn in *. by eapply list_elem_of_lookup_2. }
    pose proof (proj1 (Forall_forall _ _) Hsame row Hin) as Hr. cbn in Hr.
    rewrite Hr, intToFloatString_exact by auto. done.
  - rewrite Hsum. unfold sumRow, grandTotal.
    rewrite (map_ext_Forall _ _ _ Hsame).
    rewrite goSum_exact by (unfold GoInt.in_range; lia).
    rewrite intToFloatString_exact by (unfold GoInt.in_range; lia). done.
  - rewrite Hnb. unfold ballPensRow, ballPens.
    rewrite goSum_exact by (unfold GoInt.in_range; lia). done.
Qed.

Lemma exact_when_total_fits_witness :
  exists out : table,
    calculate GoInt.Int64 twoOrders = Returned out /\
    out !! 1%nat = Some ["2017-11-17"; "1"; "Ball Pen"; "1.99"; "50"; "99.50"] /\
    out !! 3%nat = Some [""; ""; ""; "Sum"; ""; "229.40"] /\
    out !! 4%nat = Some [""; ""; ""; "Ball Pens"; "50"; ""].
Proof.
  destruct (exact_when_total_fits GoInt.Int64 twoOrders)
    as (out & Hout & Hrows & Hsum & Hnb).
  - repeat constructor; vm_compute; eauto.
  - repeat constructor; vm_compute; discriminate.
  - vm_compute. discriminate.
  - vm_compute. discriminate.
  - exists out. split; [exact Hout|]. split_and!; [|exact Hsum|exact Hnb].
    apply (Hrows 1%nat ["2017-11-17"; "1"; "Ball Pen"; "1.99"; "50"]); [lia|done].
Defined.

(** X7.  For a negative [int] [n], [intToFloatString n] puts the sign on
    both parts: it is the numeral of [- (|n| / 100)], a period, and the
    numeral of [- (|n| mod 100)].  Above -100 the part before the period is
    [0] and the sign is only after it; and whenever [n] is no multiple of
    100, a minus sign follows the period. *)
Theorem intToFloatString_negative sz (n : Z) :
  GoInt.minInt sz <= n < 0 ->
  intToFloatString sz n =
    fmt.Sprint (- (- n / 100)) +:+ "." +:+ fmt.Sprint (- (- n mod 100)) /\
  (-100 < n -> intToFloatString sz n = "0." +:+ fmt.Sprint n) /\
  (- n mod 100 <> 0 ->
   exists digits : string,
     intToFloatString sz n
       = fmt.Sprint (- (- n / 100)) +:+ "." +:+ String "-" digits).
Proof.
  intros Hn.
  assert (Hfit : GoInt.in_range sz n).
  { unfold GoInt.in_range, GoInt.maxInt. pose proof (half_pos sz). lia. }
  assert (Hq : Z.quot n 100 = - (- n / 100)).
  { rewrite <- (Z.opp_involutive n) at 1.
    rewrite Z.quot_opp_l, Z.quot_div_nonneg by lia. done. }
  assert (Hr : Z.rem n 100 = - (- n mod 100)).
  { rewrite <- (Z.opp_involutive n) at 1.
    rewrite Z.rem_opp_l, Z.rem_mod_nonneg by lia. done. }
  rewrite intToFloatString_exact by done. unfold exactFloatString.
  rewrite Hq, Hr. split_and!.
  - done.
  - intros Hsmall.
    rewrite (Z.div_small (- n) 100), (Z.mod_small (- n) 100) by lia.
    by rewrite Z.opp_involutive.
  - intros Hne. pose proof (Z.mod_pos_bound (- n) 100 eq_refl) as Hm.
    destruct (- n mod 100) as [|p|p] eqn:Ep; [done| |lia].
    eexists. reflexivity.
Qed.

Lemma intToFloatString_negative_witness :
  intToFloatString GoInt.Int64 (-150) = "-1.-50" /\
  intToFloatString GoInt.Int64 (-5) = "0.-5".
Proof.
  assert (H150 : GoInt.minInt GoInt.Int64 <= -150 < 0) by (by vm_compute).
  assert (H5 : GoInt.minInt GoInt.Int64 <= -5 < 0) by (by vm_compute).
  destruct (intToFloatString_negative GoInt.Int64 (-150) H150) as (Ha & _).
  destruct (intToFloatString_negative GoInt.Int64 (-5) H5) as (_ & Hb & _).
  split; [exact Ha|]. apply Hb. lia.
Defined.

(** The text of a number of cents that is not negative, without its
    period: the digits of the hundreds followed by those of the rest. *)
Lemma intToFloatString_digits sz (n : Z) :
  0 <= n <= GoInt.maxInt sz ->
  strings.ReplaceAll (intToFloatString sz n) "." ""
    = fmt.Sprint (n / 100) +:+ fmt.Sprint (n mod 100) /\
  allDigits (fmt.Sprint (n / 100) +:+ fmt.Sprint (n mod 100)) /\
  fmt.Sprint (n / 100) +:+ fmt.Sprint (n mod 100) <> "" /\
  decimalValue (fmt.Sprint (n / 100) +:+ fmt.Sprint (n mod 100))
    = (if n mod 100 <? 10 then n / 100 * 10 + n mod 100 else n).
Proof.
  intros Hn.
  assert (Hfit : GoInt.in_range sz n).
  { unfold GoInt.in_range, GoInt.minInt. pose proof (half_pos sz). lia. }
  pose proof (Z.mod_pos_bound n 100 eq_refl) as Hm.
  assert (Ha : 0 <= n / 100) by (apply Z.div_pos; lia).
  destruct (Sprint_nonneg (n / 100) Ha) as (Hda & Hna & Hva).
  destruct (Sprint_nonneg (n mod 100)) as (Hdb & Hnb & Hvb); [lia|].
  split_and!.
  - rewrite intToFloatString_exact by done. unfold exactFloatString.
    rewrite Z.quot_div_nonneg, Z.rem_mod_nonneg by lia.
    by apply ReplaceAll_price.
  - by apply allDigits_app.
  - destruct (fmt.Sprint (n / 100)); done.
  - unfold decimalValue in *. rewrite valueFrom_app, valueFrom_shift, Hva, Hvb.
    destruct (n mod 100 <? 10) eqn:E.
    + apply Z.ltb_lt in E.
      rewrite <- (Z2Nat.id (n mod 100)) at 1 by lia.
      rewrite Sprint_one_digit by lia. change (10 ^ Z.of_nat 1) with 10. done.
    + apply Z.ltb_ge in E.
      rewrite <- (Z2Nat.id (n mod 100)) at 1 by lia.
      rewrite Sprint_two_digits by lia. change (10 ^ Z.of_nat 2) with 100.
      pose proof (Z.div_mod n 100). lia.
Qed.

(** X8.  A total that [intToFloatString] printed is read back by the price
    reader of [calculate] (delete the periods, then [Atoi]) as the same
    number of cents exactly when its last two digits are 10 or more, or it
    is below 10; otherwise the padding zero is lost and [100 * a + b] is
    read as [10 * a + b]. *)
Theorem total_read_back sz (n : Z) :
  0 <= n <= GoInt.maxInt sz ->
  strconv.Atoi sz (strings.ReplaceAll (intToFloatString sz n) "." "")
    = inr (if n mod 100 <? 10 then n / 100 * 10 + n mod 100 else n) /\
  (strconv.Atoi sz (strings.ReplaceAll (intToFloatString sz n) "." "") = inr n
   <-> 10 <= n mod 100 \/ n < 10).
Proof.
  intros Hn. destruct (intToFloatString_digits sz n Hn) as (Hs & Hd & Hne & Hv).
  pose proof (Z.mod_pos_bound n 100 eq_refl) as Hm.
  pose proof (Z.div_mod n 100) as Hdm.
  assert (Hread : strconv.Atoi sz (strings.ReplaceAll (intToFloatString sz n) "." "")
                  = inr (if n mod 100 <? 10 then n / 100 * 10 + n mod 100 else n)).
  { rewrite Hs, <- Hv. apply Atoi_digits_fit; [done..|].
    rewrite Hv. destruct (n mod 100 <? 10); lia. }
  split; [exact Hread|]. rewrite Hread.
  destruct (n mod 100 <? 10) eqn:E.
  - apply Z.ltb_lt in E. split.
    + intros H. injection H as H. right. lia.
    + intros [H|H]; [lia|]. f_equal.
      rewrite (Z.div_small n 100), (Z.mod_small n 100) by lia. lia.
  - apply Z.ltb_ge in E. split; [intros _; by left|done].
Qed.

Lemma total_read_back_witness :
  intToFloatString GoInt.Int64 9900 = "99.0" /\
  strconv.Atoi GoInt.Int64 (strings.ReplaceAll (intToFloatString GoInt.Int64 9900) "." "")
    = inr 990 /\
  strconv.Atoi GoInt.Int64 (strings.ReplaceAll (intToFloatString GoInt.Int64 12990) "." "")
    = inr 12990.
Proof.
  assert (Ha : 0 <= 9900 <= GoInt.maxInt GoInt.Int64) by (by vm_compute).
  assert (Hb : 0 <= 12990 <= GoInt.maxInt GoInt.Int64) by (by vm_compute).
  destruct (total_read_back GoInt.Int64 9900 Ha) as [H1 _].
  destruct (total_read_back GoInt.Int64 12990 Hb) as [H2 _].
  split_and!; [reflexivity|exact H1|exact H2].
Defined.

(** X9.  On a table whose data rows parse, the quantity reader of
    [calculate] reads the count cell of the last row of the result back as
    the count, negative counts included. *)
Theorem count_read_back sz (rows : table) :
  Forall (parses sz) (tail rows) ->
  exists (out : table) (last : list string),
    calculate sz rows = Returned out /\
    out !! S (length rows) = Some last /\
    rowQuantity sz last = Some (ballPens sz rows).
Proof.
  intros Hall. pose proof (calculate_spec sz rows Hall) as Hout.
  destruct (calculate_rows _ _ _ Hout) as (_ & _ & _ & Hlast).
  eexists _, _. split; [exact Hout|]. split; [exact Hlast|].
  unfold rowQuantity, ballPensRow. cbn [lookup list_lookup].
  rewrite Atoi_Sprint; [done|].
  unfold ballPens, goSum. apply fold_add_in_range, zero_in_range.
Qed.

Lemma count_read_back_witness :
  exists (out : table) (last : list string),
    calculate GoInt.Int64 hugeQuantities = Returned out /\
    out !! 4%nat = Some last /\
    rowQuantity GoInt.Int64 last = Some (-9223372036854775808).
Proof.
  apply (count_read_back GoInt.Int64 hugeQuantities).
  repeat constructor; vm_compute; eauto.
Defined.

(** ** Tables compared *)

(** The cells that the loop reads in a row decide what it makes of it. *)
Lemma parseRow_sameOrder sz (row row' : list string) :
  sameOrder row row' -> parseRow sz row = parseRow sz row'.
Proof. intros (E2 & E3 & E4). unfold parseRow, index. by rewrite E2, E3, E4. Qed.

Lemma parses_length sz (row : list string) :
  parses sz row -> (5 <= length row)%nat.
Proof.
  intros [_ [q Hq]]. unfold rowQuantity in Hq.
  destruct (row !! 4%nat) eqn:E; [|done]. apply lookup_lt_Some in E. lia.
Qed.

Lemma parses_sameOrder sz (row row' : list string) :
  sameOrder row row' -> parses sz row -> parses sz row'.
Proof.
  intros (_ & E3 & E4). unfold parses, rowPrice, rowQuantity. by rewrite E3, E4.
Qed.

(** X10.  The report is no input: on every table that [calculate] returns,
    a second [calculate] ends the run with the message about the price of
    the item with the empty name, the row of the grand total (or, for the
    report of the empty table, the row of the count). *)
Theorem report_is_no_input sz (rows out : table) :
  calculate sz rows = Returned out ->
  exists err : strconv.NumError,
    calculate sz out = Fatal (CannotRetrievePrice "" err).
Proof.
  intros Hout. pose proof (calculate_Returned _ _ _ Hout) as Hall.
  rewrite (calculate_spec _ _ Hall) in Hout. injection Hout as <-.
  destruct rows as [|hdr data].
  { destruct sz; eexists; reflexivity. }
  cbn [extended tail app] in *.
  rewrite (calculate_stops sz (hdr ++ ["Total"]) (map (withTotal sz) data)
             (sumRow sz (grandTotal sz (hdr :: data)))
             [ballPensRow (ballPens sz (hdr :: data))]).
  - destruct sz; eexists; reflexivity.
  - apply List.Forall_map. eapply Forall_impl; [exact Hall|].
    intros row Hrow. cbn. eapply parses_sameOrder; [|exact Hrow].
    unfold withTotal, sameOrder.
    pose proof (parses_length sz row Hrow).
    by rewrite !lookup_app_l by lia.
  - intros [[p Hp] _]. destruct sz; discriminate Hp.
Qed.

Lemma report_is_no_input_witness :
  exists err : strconv.NumError,
    calculate GoInt.Int64
      [ header ++ ["Total"];
        ["2017-11-17"; "1"; "Ball Pen"; "1.99"; "50"; "99.50"];
        ["2017-11-17"; "2"; "Notebook"; "12.99"; "10"; "129.90"];
        [""; ""; ""; "Sum"; ""; "229.40"];
        [""; ""; ""; "Ball Pens"; "50"; ""] ]
    = Fatal (CannotRetrievePrice "" err).
Proof.
  apply (report_is_no_input GoInt.Int64 twoOrders). by vm_compute.
Defined.

Lemma exactSum_Permutation (l l' : list Z) : l ≡ₚ l' -> exactSum l = exactSum l'.
Proof.
  unfold exactSum.
  induction 1 as [|x l l' _ IH|x y l|l l' l'' _ IH1 _ IH2];
    cbn [fold_right] in *; lia.
Qed.

(** X11.  The two last rows do not depend on the order of the data rows,
    also when the sums wrap: a table and the same table with its data
    rows in another order both pass, with the same total and the same
    count. *)
Theorem summary_does_not_depend_on_order sz (hdr : list string) (data data' : table) :
  data ≡ₚ data' -> Forall (parses sz) data ->
  exists out out' : table,
    calculate sz (hdr :: data) = Returned out /\
    calculate sz (hdr :: data') = Returned out' /\
    out !! S (length data) = out' !! S (length data') /\
    out !! S (S (length data)) = out' !! S (S (length data')).
Proof.
  intros Hperm Hall.
  assert (Hall' : Forall (parses sz) data') by (by rewrite <- Hperm).
  pose proof (calculate_spec sz (hdr :: data) Hall) as Hout.
  pose proof (calculate_spec sz (hdr :: data') Hall') as Hout'.
  destruct (calculate_rows _ _ _ Hout) as (_ & _ & Hsum & Hnb).
  destruct (calculate_rows _ _ _ Hout') as (_ & _ & Hsum' & Hnb').
  eexists _, _. split; [exact Hout|]. split; [exact Hout'|].
  cbn [length] in *. rewrite Hsum, Hsum', Hnb, Hnb'.
  unfold grandTotal, ballPens. cbn [tail]. rewrite !goSum_wrap.
  rewrite (exactSum_Permutation (map (rowTotal sz) data) (map (rowTotal sz) data'))
    by (by apply Permutation_map).
  rewrite (exactSum_Permutation (map (quantityOf sz) (filter isBallPen data))
             (map (quantityOf sz) (filter isBallPen data')))
    by (apply Permutation_map; by rewrite Hperm).
  done.
Qed.

Lemma summary_does_not_depend_on_order_witness :
  exists out out' : table,
    calculate GoInt.Int64 twoOrders = Returned out /\
    calculate GoInt.Int64 twoOrdersSwapped = Returned out' /\
    out !! 3%nat = out' !! 3%nat /\
    out !! 4%nat = out' !! 4%nat.
Proof.
  apply (summary_does_not_depend_on_order GoInt.Int64 header
           (tail twoOrders) (tail twoOrdersSwapped)).
  - apply perm_swap.
  - repeat constructor; vm_compute; eauto.
Defined.

Lemma goSum_app sz (l l' : list Z) :
  goSum sz (l ++ l') = GoInt.add sz (goSum sz l) (goSum sz l').
Proof.
  unfold GoInt.add. rewrite !goSum_wrap.
  rewrite wrap_add_l, Z.add_comm, wrap_add_l. f_equal.
  unfold exactSum. induction l as [|x l IH]; cbn [app fold_right]; lia.
Qed.

(** X12.  The sums of a table made of the data rows of two tables are the
    sums of the two, added with Go's [+]: on data rows that parse, the
    total and the count of the rows [d1 ++ d2] are those of [d1] and
    those of [d2], added. *)
Theorem summary_of_two_tables sz (hdr : list string) (d1 d2 : table) :
  Forall (parses sz) d1 -> Forall (parses sz) d2 ->
  exists out : table,
    calculate sz (hdr :: d1 ++ d2) = Returned out /\
    out !! S (length (d1 ++ d2)) =
      Some (sumRow sz (GoInt.add sz (grandTotal sz (hdr :: d1))
                                    (grandTotal sz (hdr :: d2)))) /\
    out !! S (S (length (d1 ++ d2))) =
      Some (ballPensRow (GoInt.add sz (ballPens sz (hdr :: d1))
                                      (ballPens sz (hdr :: d2)))).
Proof.
  intros H1 H2.
  assert (Hall : Forall (parses sz) (tail (hdr :: d1 ++ d2)))
    by (by apply Forall_app).
  pose proof (calculate_spec sz _ Hall) as Hout.
  destruct (calculate_rows _ _ _ Hout) as (_ & _ & Hsum & Hnb).
  eexists. split; [exact Hout|]. cbn [length] in *. rewrite Hsum, Hnb.
  unfold grandTotal, ballPens. cbn [tail].
  by rewrite filter_app, !map_app, !goSum_app.
Qed.

Lemma summary_of_two_tables_witness :
  exists out : table,
    calculate GoInt.Int64 twoOrders = Returned out /\
    out !! 3%nat = Some (sumRow GoInt.Int64 (GoInt.add GoInt.Int64 9950 12990)) /\
    out !! 4%nat = Some (ballPensRow (GoInt.add GoInt.Int64 50 0)).
Proof.
  apply (summary_of_two_tables GoInt.Int64 header
           [["2017-11-17"; "1"; "Ball Pen"; "1.99"; "50"]]
           [["2017-11-17"; "2"; "Notebook"; "12.99"; "10"]]).
  - repeat constructor; vm_compute; eauto.
  - repeat constructor; vm_compute; eauto.
Defined.

(** What the loop reads in a row decides whether the row parses, its total
    and its part in the count. *)
Lemma reading_determines sz (row row' : list string) :
  parseRow sz row = parseRow sz row' -> parses sz row ->
  parses sz row' /\ rowTotal sz row = rowTotal sz row' /\
  quantityOf sz row = quantityOf sz row' /\ (isBallPen row <-> isBallPen row').
Proof.
  intros E Hrow.
  destruct (parseRow_parses sz row Hrow) as (item & p & q & E2 & Ep & Eq & Er).
  assert (Hrow' : parses sz row') by (apply (parseRow_Returned sz row' (item, p, q)); congruence).
  destruct (parseRow_parses sz row' Hrow') as (item' & p' & q' & E2' & Ep' & Eq' & Er').
  assert (item' = item /\ p' = p /\ q' = q) as (-> & -> & ->)
    by (split_and!; congruence).
  unfold rowTotal, quantityOf, isBallPen.
  by rewrite Ep, Eq, Ep', Eq', E2, E2'.
Qed.

Lemma reading_determines_all sz (data data' : table) :
  Forall2 (fun row row' => parseRow sz row = parseRow sz row') data data' ->
  Forall (parses sz) data ->
  Forall (parses sz) data' /\
  map (rowTotal sz) data = map (rowTotal sz) data' /\
  map (quantityOf sz) (filter isBallPen data)
    = map (quantityOf sz) (filter isBallPen data').
Proof.
  induction 1 as [|row row' data data' E _ IH]; intros Hall; [done|].
  apply Forall_cons in Hall as [Hrow Hall].
  destruct (IH Hall) as (IH1 & IH2 & IH3).
  destruct (reading_determines sz row row' E Hrow) as (Hrow' & Et & Eq & Hbp).
  split_and!.
  - by constructor.
  - cbn [map]. by rewrite Et, IH2.
  - rewrite !filter_cons.
    destruct (decide (isBallPen row)) as [Hb|Hb].
    + rewrite decide_True by tauto. cbn [map]. by rewrite Eq, IH3.
    + rewrite decide_False by tauto. done.
Qed.

(** Tables whose data rows are read alike, row by row, have the same
    report. *)
Lemma calculate_same_reading sz (hdr hdr' : list string) (data data' : table) :
  Forall2 (fun row row' => parseRow sz row = parseRow sz row') data data' ->
  sameReport data data' (calculate sz (hdr :: data)) (calculate sz (hdr' :: data')).
Proof.
  intros Hread.
  destruct (decide (Forall (parses sz) data)) as [Hall|Hno].
  - destruct (reading_determines_all sz data data' Hread Hall) as (Hall' & Ht & Hq).
    pose proof (calculate_spec sz (hdr :: data) Hall) as Hout.
    pose proof (calculate_spec sz (hdr' :: data') Hall') as Hout'.
    rewrite Hout, Hout'. split; [done|]. rewrite <- Hout, <- Hout'.
    intros out out' Ho Ho'.
    destruct (calculate_rows _ _ _ Ho) as (_ & Hrows & Hsum & Hnb).
    destruct (calculate_rows _ _ _ Ho') as (_ & Hrows' & Hsum' & Hnb').
    cbn [length] in *. split_and!.
    + intros i row row' Hrow Hrow'.
      exists (intToFloatString sz (rowTotal sz row)).
      rewrite Hrows by (apply lookup_lt_Some in Hrow; lia).
      rewrite Hrows' by (apply lookup_lt_Some in Hrow'; lia).
      rewrite (extended_data sz (hdr :: data) (S i) row) by (done || lia).
      rewrite (extended_data sz (hdr' :: data') (S i) row') by (done || lia).
      split; [done|]. unfold withTotal. do 3 f_equal.
      assert (E : map (rowTotal sz) data !! i = map (rowTotal sz) data' !! i)
        by (by rewrite Ht).
      rewrite (lookup_map _ _ _ _ Hrow), (lookup_map _ _ _ _ Hrow') in E.
      congruence.
    + rewrite Hsum, Hsum'. unfold grandTotal. cbn [tail]. by rewrite Ht.
    + rewrite Hnb, Hnb'. unfold ballPens. cbn [tail]. by rewrite Hq.
  - destruct (first_failure _ _ Hno) as (good & bad & rest & -> & Hgood & Hbad).
    apply Forall2_app_inv_l in Hread as (good' & tl' & Hgood2 & Htl & ->).
    apply Forall2_cons_inv_l in Htl as (bad' & rest' & Ebad & _ & ->).
    destruct (reading_determines_all sz good good' Hgood2 Hgood) as (Hgood' & _).
    assert (Hbad' : ~ parses sz bad').
    { intros H. apply Hbad. by apply (reading_determines sz bad' bad). }
    rewrite !calculate_stops by done. rewrite <- Ebad.
    split; [by destruct (parseRow sz bad)|].
    intros out out' Ho. by destruct (parseRow sz bad).
Qed.

Lemma Forall2_same {A : Type} (R : A -> A -> Prop) (l : list A) :
  (forall x, R x x) -> Forall2 R l l.
Proof. intros HR. induction l; by constructor. Qed.

(** X13.  [calculate] reads three cells of a data row: its item name, its
    unit price and its quantity.  Two tables whose data rows agree on
    these cells, row by row, whatever their headers, their other cells
    and the lengths of their rows, have the same report: the runs end
    alike, and when they return, rows at the same index got the same
    total and the two last rows are the same. *)
Theorem only_three_cells_are_read sz (hdr hdr' : list string) (data data' : table) :
  Forall2 sameOrder data data' ->
  sameReport data data' (calculate sz (hdr :: data)) (calculate sz (hdr' :: data')).
Proof.
  intros Hsame. apply calculate_same_reading.
  eapply Forall2_impl; [exact Hsame|]. apply parseRow_sameOrder.
Qed.

Lemma only_three_cells_are_read_witness :
  sameReport (tail twoOrders) (tail twoOrdersRedated)
    (calculate GoInt.Int64 twoOrders) (calculate GoInt.Int64 twoOrdersRedated) /\
  calculate GoInt.Int64 twoOrdersRedated =
    Returned [ header ++ ["Total"];
               ["2018-01-01"; "7"; "Ball Pen"; "1.99"; "50"; "urgent"; "99.50"];
               ["2018-01-02"; "8"; "Notebook"; "12.99"; "10"; "129.90"];
               [""; ""; ""; "Sum"; ""; "229.40"];
               [""; ""; ""; "Ball Pens"; "50"; ""] ].
Proof.
  split; [|by vm_compute].
  apply (only_three_cells_are_read GoInt.Int64 header header
           (tail twoOrders) (tail twoOrdersRedated)).
  repeat constructor.
Defined.

Lemma ReplaceAll_period (a b : string) :
  strings.ReplaceAll (a +:+ "." +:+ b) "." "" = strings.ReplaceAll (a +:+ b) "." "".
Proof. rewrite !ReplaceAll_app. reflexivity. Qed.

(** X14.  The periods of a unit price are not read: a table and the same
    table with one period of one price cell left out have the same
    report, so [12.99], [1.299] and [1299] are the same price. *)
Theorem periods_are_not_read sz (hdr : list string) (before : table)
    (row : list string) (after : table) (a b : string) :
  row !! 3%nat = Some (a +:+ "." +:+ b) ->
  sameReport (before ++ row :: after) (before ++ <[3%nat := a +:+ b]> row :: after)
    (calculate sz (hdr :: before ++ row :: after))
    (calculate sz (hdr :: before ++ <[3%nat := a +:+ b]> row :: after)).
Proof.
  intros Hcell. apply calculate_same_reading.
  apply Forall2_app; [by apply Forall2_same|].
  constructor; [|by apply Forall2_same].
  unfold parseRow, index.
  rewrite (list_lookup_insert_ne row 3 2), (list_lookup_insert_ne row 3 4) by lia.
  rewrite list_lookup_insert_eq by (by eapply lookup_lt_Some).
  rewrite Hcell. cbn [bind]. by rewrite ReplaceAll_period.
Qed.

Lemma periods_are_not_read_witness :
  sameReport (tail twoOrders)
    [ ["2017-11-17"; "1"; "Ball Pen"; "1.99"; "50"];
      ["2017-11-17"; "2"; "Notebook"; "1299"; "10"] ]
    (calculate GoInt.Int64 twoOrders)
    (calculate GoInt.Int64
       [ header;
         ["2017-11-17"; "1"; "Ball Pen"; "1.99"; "50"];
         ["2017-11-17"; "2"; "Notebook"; "1299"; "10"] ]).
Proof.
  apply (periods_are_not_read GoInt.Int64 header
           [["2017-11-17"; "1"; "Ball Pen"; "1.99"; "50"]]
           ["2017-11-17"; "2"; "Notebook"; "12.99"; "10"] [] "12" "99").
  reflexivity.
Defined.

(** ** The whole run *)

(** [main] once [orders.csv] is read. *)
Lemma main_after_read sz (env : Env) (rows : table) :
  os_Open env "orders.csv" = None ->
  csv_ReadAll env "orders.csv" = inr rows ->
  main sz env =
    io_bind ([Opened "orders.csv"; Closed "orders.csv"], calculate sz rows)
      (fun out => writeOrders env "ordersReport.csv" out).
Proof.
  intros Hopen Hread. unfold main, readOrders, io_bind, pure.
  rewrite Hopen, Hread.
  destruct (calculate sz rows) as [out|m|]; [|done..].
  by destruct (writeOrders env "ordersReport.csv" out).
Qed.

(** X15.  [main] returns exactly when [orders.csv] can be opened and read
    as a table, every data row of the table parses, and
    [ordersReport.csv] can be created and closed: neither an error of
    closing [orders.csv] nor an error of writing the report ends the
    run. *)
Theorem main_returns_iff sz (env : Env) :
  snd (main sz env) = Returned tt <->
  os_Open env "orders.csv" = None /\
  (exists rows : table,
     csv_ReadAll env "orders.csv" = inr rows /\ Forall (parses sz) (tail rows)) /\
  os_Create env "ordersReport.csv" = None /\
  file_Close env "ordersReport.csv" = None.
Proof.
  destruct (os_Open env "orders.csv") as [e|] eqn:Hopen.
  { unfold main, readOrders, io_bind. rewrite Hopen. cbn. split; [done|].
    by intros [? _]. }
  destruct (csv_ReadAll env "orders.csv") as [e|rows] eqn:Hread.
  { unfold main, readOrders, io_bind. rewrite Hopen, Hread. cbn. split; [done|].
    by intros (_ & (rows & ? & _) & _). }
  rewrite (main_after_read sz env rows Hopen Hread). unfold io_bind, writeOrders.
  destruct (calculate sz rows) as [out|m|] eqn:Hcalc.
  - pose proof (calculate_Returned _ _ _ Hcalc) as Hall.
    destruct (os_Create env "ordersReport.csv"),
      (file_Close env "ordersReport.csv"); cbn; split; try done;
      try (intros (_ & _ & ? & ?); done).
    intros _. split_and!; eauto.
  - cbn. split; [done|]. intros (_ & (rows' & Hr & Hall) & _).
    simplify_eq. by rewrite calculate_spec in Hcalc.
  - cbn. split; [done|]. intros (_ & (rows' & Hr & Hall) & _).
    simplify_eq. by rewrite calculate_spec in Hcalc.
Qed.

(** X16.  When every call succeeds and the data rows of [orders.csv]
    parse, [main] opens and closes [orders.csv], creates
    [ordersReport.csv], writes into it the rows of the input with their
    totals followed by the row of the grand total and the row of the
    count, closes it, and returns. *)
Theorem main_writes_report sz (env : Env) (rows : table) :
  os_Open env "orders.csv" = None ->
  csv_ReadAll env "orders.csv" = inr rows ->
  Forall (parses sz) (tail rows) ->
  os_Create env "ordersReport.csv" = None ->
  csv_WriteAll env "ordersReport.csv"
    (extended sz rows
     ++ [sumRow sz (grandTotal sz rows); ballPensRow (ballPens sz rows)]) = None ->
  file_Close env "ordersReport.csv" = None ->
  main sz env =
    ([ Opened "orders.csv"; Closed "orders.csv";
       Created "ordersReport.csv";
       Wrote "ordersReport.csv"
         (extended sz rows
          ++ [sumRow sz (grandTotal sz rows); ballPensRow (ballPens sz rows)]);
       Closed "ordersReport.csv" ],
     Returned tt).
Proof.
  intros Hopen Hread Hall Hcreate Hwrite Hclose.
  rewrite (main_after_read sz env rows Hopen Hread), calculate_spec by done.
  unfold io_bind, writeOrders. by rewrite Hcreate, Hwrite, Hclose.
Qed.

Lemma main_writes_report_witness :
  main GoInt.Int64 (env_ok twoOrders) =
    ([ Opened "orders.csv"; Closed "orders.csv";
       Created "ordersReport.csv";
       Wrote "ordersReport.csv"
         [ header ++ ["Total"];
           ["2017-11-17"; "1"; "Ball Pen"; "1.99"; "50"; "99.50"];
           ["2017-11-17"; "2"; "Notebook"; "12.99"; "10"; "129.90"];
           [""; ""; ""; "Sum"; ""; "229.40"];
           [""; ""; ""; "Ball Pens"; "50"; ""] ];
       Closed "ordersReport.csv" ],
     Returned tt).
Proof.
  apply (main_writes_report GoInt.Int64 (env_ok twoOrders) twoOrders);
    try reflexivity.
  repeat constructor; vm_compute; eauto.
Defined.

(** X17.  [main] creates no file or the one file [ordersReport.csv], and
    creates it only after [calculate] returned on the table read from
    [orders.csv]; what it writes, it writes into [ordersReport.csv], and
    it is the table that [calculate] returned. *)
Theorem main_touches_one_file sz (env : Env) :
  (filesCreated (fst (main sz env)) = [] \/
   filesCreated (fst (main sz env)) = ["ordersReport.csv"]) /\
  (filesCreated (fst (main sz env)) <> [] ->
   exists input out : table,
     csv_ReadAll env "orders.csv" = inr input /\ calculate sz input = Returned out) /\
  (forall (name : string) (rows : table),
     Wrote name rows ∈ fst (main sz env) ->
     name = "ordersReport.csv" /\
     exists input : table,
       csv_ReadAll env "orders.csv" = inr input /\ calculate sz input = Returned rows).
Proof.
  destruct (os_Open env "orders.csv") as [e|] eqn:Hopen.
  { unfold main, readOrders, io_bind. rewrite Hopen. cbn.
    split; [by left|split; [done|]]. intros name rows H. by apply elem_of_nil in H. }
  destruct (csv_ReadAll env "orders.csv") as [e|input] eqn:Hread.
  { unfold main, readOrders, io_bind. rewrite Hopen, Hread. cbn.
    split; [by left|split; [done|]]. intros name rows H.
    apply elem_of_cons in H as [H|H]; [done|by apply elem_of_nil in H]. }
  rewrite (main_after_read sz env input Hopen Hread). unfold io_bind, writeOrders.
  destruct (calculate sz input) as [out|m|] eqn:Hcalc; cbn.
  2,3: split; [by left|split; [done|]]; intros name rows H;
       repeat (apply elem_of_cons in H as [H|H]; [done|]); by apply elem_of_nil in H.
  destruct (os_Create env "ordersReport.csv"),
    (csv_WriteAll env "ordersReport.csv" out),
    (file_Close env "ordersReport.csv"); cbn.
  all: split; [first [by left|by right]|].
  all: split; [intros _; by exists input, out|].
  all: intros name rows H.
  all: repeat (apply elem_of_cons in H as [H|H]; [try done|]).
  all: try (by apply elem_of_nil in H).
  all: simplify_eq; split; [done|by exists input].
Qed.

(** X18.  The first failure of a run decides its message.  When
    [orders.csv] cannot be opened, [main] ends with [Cannot open] and has
    touched no file; when it is opened and cannot be read as a table,
    [main] ends with [Cannot read CSV data] and the file is not closed;
    when the table parses and [ordersReport.csv] cannot be created,
    [main] ends with [Cannot open] about that file; when it is created and
    cannot be closed, [main] ends with [Cannot close]. *)
Theorem main_fatal_messages sz (env : Env) :
  (forall e : string,
     os_Open env "orders.csv" = Some e ->
     main sz env = ([], Fatal (CannotOpen "orders.csv" e))) /\
  (forall e : string,
     os_Open env "orders.csv" = None ->
     csv_ReadAll env "orders.csv" = inl e ->
     main sz env = ([Opened "orders.csv"], Fatal (CannotReadCSV e))) /\
  (forall (rows : table) (e : string),
     os_Open env "orders.csv" = None ->
     csv_ReadAll env "orders.csv" = inr rows ->
     Forall (parses sz) (tail rows) ->
     os_Create env "ordersReport.csv" = Some e ->
     main sz env = ([Opened "orders.csv"; Closed "orders.csv"],
                    Fatal (CannotOpen "ordersReport.csv" e))) /\
  (forall (rows : table) (e : string),
     os_Open env "orders.csv" = None ->
     csv_ReadAll env "orders.csv" = inr rows ->
     Forall (parses sz) (tail rows) ->
     os_Create env "ordersReport.csv" = None ->
     file_Close env "ordersReport.csv" = Some e ->
     snd (main sz env) = Fatal (CannotClose "ordersReport.csv" e) /\
     filesCreated (fst (main sz env)) = ["ordersReport.csv"]).
Proof.
  split_and!.
  - intros e Hopen. unfold main, readOrders, io_bind. by rewrite Hopen.
  - intros e Hopen Hread. unfold main, readOrders, io_bind. by rewrite Hopen, Hread.
  - intros rows e Hopen Hread Hall Hcreate.
    rewrite (main_after_read sz env rows Hopen Hread), calculate_spec by done.
    unfold io_bind, writeOrders. by rewrite Hcreate.
  - intros rows e Hopen Hread Hall Hcreate Hclose.
    rewrite (main_after_read sz env rows Hopen Hread), calculate_spec by done.
    unfold io_bind, writeOrders. rewrite Hcreate, Hclose.
    by destruct (csv_WriteAll env "ordersReport.csv" _).
Qed.

(** X19.  On a table that is not empty, whose rows all have [k] cells and
    whose data rows parse, the rows of the input have [k + 1] cells in the
    result and the two last rows have six: the rows of the result all
    have the same number of cells exactly when [k] is 5, and then they
    have six. *)
Theorem report_is_rectangular_iff sz (rows : table) (k : nat) :
  rows <> [] ->
  Forall (fun row => length row = k) rows ->
  Forall (parses sz) (tail rows) ->
  exists out : table,
    calculate sz rows = Returned out /\
    ((exists n : nat, Forall (fun row => length row = n) out) <-> k = 5%nat) /\
    (k = 5%nat -> Forall (fun row => length row = 6%nat) out).
Proof.
  intros Hne Hk Hall. destruct rows as [|hdr data]; [done|].
  apply Forall_cons in Hk as [Hhdr Hdata].
  eexists. split; [by apply calculate_spec|]. cbn [extended].
  assert (Hext : Forall (fun row => length row = S k)
                   ((hdr ++ ["Total"]) :: map (withTotal sz) data)).
  { constructor.
    - rewrite length_app, Hhdr. cbn. lia.
    - apply List.Forall_map. eapply Forall_impl; [exact Hdata|].
      intros row Hrow. cbn in *. unfold withTotal. rewrite length_app, Hrow. cbn. lia. }
  assert (Hsix : k = 5%nat ->
            Forall (fun row => length row = 6%nat)
              (((hdr ++ ["Total"]) :: map (withTotal sz) data)
               ++ [sumRow sz (grandTotal sz (hdr :: data));
                   ballPensRow (ballPens sz (hdr :: data))])).
  { intros ->. apply Forall_app. split; [exact Hext|]. by repeat constructor. }
  split; [|exact Hsix]. split.
  - intros [n Hn]. apply Forall_app in Hn as [Hin Hlast].
    apply Forall_cons in Hin as [Hin _]. apply Forall_cons in Hlast as [Hlast _].
    apply Forall_cons in Hext as [Hext _]. cbn in Hlast. lia.
  - intros E. eexists. by apply Hsix.
Qed.

Lemma report_is_rectangular_iff_witness :
  exists out : table,
    calculate GoInt.Int64 twoOrders = Returned out /\
    ((exists n : nat, Forall (fun row => length row = n) out) <-> 5%nat = 5%nat) /\
    (5%nat = 5%nat -> Forall (fun row => length row = 6%nat) out).
Proof.
  apply (report_is_rectangular_iff GoInt.Int64 twoOrders 5).
  - discriminate.
  - by repeat constructor.
  - repeat constructor; vm_compute; eauto.
Defined.
